(** * mkosi.installer: the apt and zypper package-manager backends

  A shallow embedding of [mkosi/installer/apt.py] and
  [mkosi/installer/zypper.py].  Configuration files are strings, the
  file system is a finite map from paths to nodes, and every Python
  function that touches the file system or calls a collaborator is a
  computation in a state-and-exception monad over that file system. *)

From Stdlib Require Import Ascii DecimalString.
From stdpp Require Import gmap strings list sorting.

Local Open Scope stdpp_scope.

(** ** Python strings *)

Module Py.

(** The line feed, ["\n"] in the source. *)
Definition nl : ascii := "010"%char.
Definition tab : ascii := "009"%char.
Definition NL : string := String nl "".

(** [" " * n] *)
Fixpoint spaces (n : nat) : string :=
  match n with
  | O => ""
  | S n' => String " "%char (spaces n')
  end.

(** [s.split(sep)] for a separator of one character: the pieces
    between separators; a text that ends in one yields a last, empty
    piece. *)
Fixpoint split_on (sep : ascii) (s : string) : list string :=
  match s with
  | "" => [""]
  | String c s' =>
      if decide (c = sep) then "" :: split_on sep s'
      else match split_on sep s' with
           | l :: ls => String c l :: ls
           | [] => [String c ""]
           end
  end.

(** [s.split("\n")] *)
Definition split_lines : string -> list string := split_on nl.

(** ["\n".join(ls)] *)
Fixpoint join_lines (ls : list string) : string :=
  match ls with
  | [] => ""
  | [l] => l
  | l :: ls' => l +:+ NL +:+ join_lines ls'
  end.

(** [str.splitlines()] restricted to line feeds: the lines of a text,
    each without its terminator; a final line feed opens no new line. *)
Definition lines (s : string) : list string :=
  match reverse (split_lines s) with
  | "" :: r => reverse r
  | _ => split_lines s
  end.

(** [str(n)] for a natural number. *)
Definition str_nat (n : nat) : string :=
  NilZero.string_of_uint (Nat.to_uint n).

(** [int(b)] *)
Definition int_of_bool (b : bool) : nat := if b then 1 else 0.

(** [str(b).lower()] *)
Definition str_bool_lower (b : bool) : string :=
  if b then "true" else "false".

(** *** [textwrap.dedent]

    The two regular expressions of the library, read line by line: the
    first selects the lines made of spaces and tabs only, the second
    the leading spaces and tabs of every line that has another
    character. *)

Definition is_blank (c : ascii) : bool :=
  bool_decide (c = " "%char) || bool_decide (c = tab).

Fixpoint leading_blanks (l : string) : string :=
  match l with
  | String c l' => if is_blank c then String c (leading_blanks l') else ""
  | "" => ""
  end.

Fixpoint all_blank (l : string) : bool :=
  match l with
  | String c l' => is_blank c && all_blank l'
  | "" => true
  end.

(** [_whitespace_only_re.sub('', text)] on one line. *)
Definition normalize_blank_line (l : string) : string :=
  if all_blank l then "" else l.

(** [_leading_whitespace_re.findall(text)]: one indent per line with
    content. *)
Definition indents (ls : list string) : list string :=
  leading_blanks <$> filter (λ l, all_blank l = false) ls.

(** [margin[:i]] at the first [i] where the two differ. *)
Fixpoint common_prefix (a b : string) : string :=
  match a, b with
  | String x a', String y b' =>
      if decide (x = y) then String x (common_prefix a' b') else ""
  | _, _ => ""
  end.

(** The body of the loop over the indents. *)
Definition margin_step (margin : option string) (indent : string)
  : option string :=
  match margin with
  | None => Some indent
  | Some m =>
      if String.prefix m indent then Some m
      else if String.prefix indent m then Some indent
      else Some (common_prefix m indent)
  end.

Definition find_margin (ls : list string) : option string :=
  foldl margin_step None (indents ls).

(** [re.sub(r'(?m)^' + margin, '', text)] on one line. *)
Fixpoint strip_prefix (m l : string) : option string :=
  match m, l with
  | "", _ => Some l
  | String x m', String y l' =>
      if decide (x = y) then strip_prefix m' l' else None
  | String _ _, "" => None
  end.

Definition remove_margin (m l : string) : string :=
  default l (strip_prefix m l).

Definition dedent (text : string) : string :=
  let ls := normalize_blank_line <$> split_lines text in
  match find_margin ls with
  | Some (String c m) => join_lines (remove_margin (String c m) <$> ls)
  | _ => join_lines ls
  end.

End Py.

(** ** Paths and the file system *)

(** A [pathlib.Path], absolute: the list of its components below the
  root directory. *)
Abbreviation Path := (list string).

Module Paths.

(** The components of a relative path written with slashes. *)
Definition parts (s : string) : Path :=
  filter (λ c, c ≠ "") (Py.split_on "/"%char s).

(** [p / s] *)
Definition join (p : Path) (s : string) : Path := p ++ parts s.

(** [p.parent]; the root is its own parent. *)
Definition parent (p : Path) : Path := removelast p.

(** [str(p)] *)
Fixpoint str (p : Path) : string :=
  match p with
  | [] => "/"
  | [c] => "/" +:+ c
  | c :: p' => "/" +:+ c +:+ str p'
  end.

End Paths.

Infix "</>" := Paths.join (at level 40, left associativity).

(** What a path names.  Modes, owners and times are not part of the
  model: no function below reads them. *)
Inductive node : Type :=
  | Dir
  | File (content : string).

Abbreviation FS := (gmap Path node).

Inductive exn : Type :=
  | FileExistsError (p : Path)
  | FileNotFoundError (p : Path)
  | NotADirectoryError (p : Path)
  | IsADirectoryError (p : Path)
  | CalledProcessError (returncode : nat)
  | OtherError (msg : string).

Inductive result (A : Type) : Type :=
  | Ok (a : A)
  | Raise (e : exn).
Arguments Ok {A} a.
Arguments Raise {A} e.

(** A call to a collaborator that is not part of the two modules. *)
Inductive event : Type :=
  | EvSourceMountsEnter
  | EvSourceMountsExit
  | EvRun (cmdline sandbox : list string) (env : gmap string string)
  | EvSetupRpm
  | EvFixupRpmdbLocation.

(** The state a function runs in: the file system, and the calls to
  collaborators made so far, oldest first. *)
Record World : Type := mkWorld {
  nodes : FS;
  calls : list event
}.

(** ** Computations: state and exceptions *)

Definition M (A : Type) : Type := World -> World * result A.

Definition ret {A} (a : A) : M A := λ w, (w, Ok a).

Definition bind {A B} (m : M A) (k : A -> M B) : M B :=
  λ w, match m w with
       | (w', Ok a) => k a w'
       | (w', Raise e) => (w', Raise e)
       end.

Definition raise {A} (e : exn) : M A := λ w, (w, Raise e).

#[global] Instance M_ret : MRet M := @ret.
#[global] Instance M_bind : MBind M := λ A B k m, bind m k.

(** [if cond: body] *)
Definition when (cond : bool) (body : M unit) : M unit :=
  if cond then body else ret ().

(** [for x in xs: body] *)
Fixpoint for_ {A} (xs : list A) (body : A -> M unit) : M unit :=
  match xs with
  | [] => ret ()
  | x :: xs' => body x ;; for_ xs' body
  end.

(** [enumerate(xs)] *)
Definition enumerate {A} (xs : list A) : list (nat * A) :=
  zip (seq 0 (length xs)) xs.

(** [with cm as x: body], for a context manager that lets the
  exceptions of its body through: the exit half runs on both ways out
  of the body, then the exception of the body is raised again. *)
Definition with_ {A B} (enter : M A) (exit : M unit) (body : A -> M B)
  : M B :=
  λ w, match enter w with
       | (w1, Raise e) => (w1, Raise e)
       | (w1, Ok a) =>
           match body a w1 with
           | (w2, r) =>
               match exit w2 with
               | (w3, Ok _) => (w3, r)
               | (w3, Raise e) => (w3, Raise e)
               end
           end
       end.

(** A collaborator: it may change the file system and raise; the call
  is recorded. *)
Definition call {A} (ev : event) (f : FS -> FS * result A) : M A :=
  λ w, let '(fs, r) := f (nodes w) in
       (mkWorld fs (calls w ++ [ev]), r).

(** A read of the file system. *)
Definition read {A} (f : FS -> A) : M A := λ w, (w, Ok (f (nodes w))).

(** A step on the file system alone. *)
Definition fs_step (f : FS -> FS * result unit) : M unit :=
  λ w, let '(fs, r) := f (nodes w) in (mkWorld fs (calls w), r).

(** ** [pathlib] operations *)

Module Fs.

(** The root directory exists without an entry of its own. *)
Definition lookup (p : Path) (fs : FS) : option node :=
  match p with
  | [] => Some Dir
  | _ => fs !! p
  end.

(** [p.exists()] *)
Definition exists_ (p : Path) (fs : FS) : bool :=
  bool_decide (is_Some (lookup p fs)).

(** Creating the entry [p]: its parent has to be a directory. *)
Definition create (p : Path) (n : node) (fs : FS) : FS * result unit :=
  match lookup (Paths.parent p) fs with
  | Some Dir => (<[p := n]> fs, Ok ())
  | Some (File _) => (fs, Raise (NotADirectoryError p))
  | None => (fs, Raise (FileNotFoundError p))
  end.

(** [p.mkdir(parents=True, exist_ok=True)], from the root downwards:
    [pre] is the part of the path that is known to be a directory. *)
Fixpoint mkdir_from (pre : Path) (rest : list string) (fs : FS)
  : FS * result unit :=
  match rest with
  | [] => (fs, Ok ())
  | c :: rest' =>
      let q := pre ++ [c] in
      match fs !! q with
      | Some Dir => mkdir_from q rest' fs
      | Some (File _) =>
          (fs, Raise (match rest' with
                      | [] => FileExistsError q
                      | _ => NotADirectoryError (q ++ rest')
                      end))
      | None => mkdir_from q rest' (<[q := Dir]> fs)
      end
  end.

Definition mkdir_p (p : Path) (fs : FS) : FS * result unit :=
  mkdir_from [] p fs.

(** [p.touch()] *)
Definition touch (p : Path) (fs : FS) : FS * result unit :=
  match lookup p fs with
  | Some _ => (fs, Ok ())
  | None => create p (File "") fs
  end.

(** [p.open("w")]: the file is created, or emptied. *)
Definition open_w (p : Path) (fs : FS) : FS * result unit :=
  match lookup p fs with
  | Some Dir => (fs, Raise (IsADirectoryError p))
  | Some (File _) => (<[p := File ""]> fs, Ok ())
  | None => create p (File "") fs
  end.

(** [p.open("a")]: the file is created, or kept. *)
Definition open_a (p : Path) (fs : FS) : FS * result unit :=
  match lookup p fs with
  | Some Dir => (fs, Raise (IsADirectoryError p))
  | Some (File _) => (fs, Ok ())
  | None => create p (File "") fs
  end.

(** [f.write(s)] on the open file [f], named by its path: the text
    goes to the end of the file. *)
Definition write (p : Path) (s : string) (fs : FS) : FS * result unit :=
  match fs !! p with
  | Some (File c) => (<[p := File (c +:+ s)]> fs, Ok ())
  | _ => (fs, Ok ())
  end.

End Fs.

Definition path_exists (p : Path) : M bool := read (Fs.exists_ p).
Definition mkdir_p (p : Path) : M unit := fs_step (Fs.mkdir_p p).
Definition touch (p : Path) : M unit := fs_step (Fs.touch p).
Definition open_w (p : Path) : M unit := fs_step (Fs.open_w p).
Definition open_a (p : Path) : M unit := fs_step (Fs.open_a p).
Definition fwrite (p : Path) (s : string) : M unit := fs_step (Fs.write p s).

(** [if not p.exists(): body] *)
Definition unless_exists (p : Path) (body : M unit) : M unit :=
  p_exists ← path_exists p ;
  when (negb p_exists) body.

(** [p.write_text(s)] *)
Definition write_text (p : Path) (s : string) : M unit :=
  open_w p ;; fwrite p s.

(** [with umask(mask): body] of [mkosi.util].  The mask decides the
    modes of what [body] creates, and modes are not in the model. *)
Definition with_umask {A} (mask : Z) (body : M A) : M A := body.

(** ** Build context *)

(** [context.config.distribution]: the one method the backends call,
  the name the distribution gives an architecture. *)
Record Distribution : Type := {
  distribution_architecture : string -> string
}.

(** The fields of [context.config] the two modules read; [tools] is the
  value of [context.config.tools()]. *)
Record Config : Type := {
  distribution : Distribution;
  architecture : string;
  release : string;
  with_recommends : bool;
  with_docs : bool;
  repository_key_check : bool;
  environment : gmap string string;
  tools : Path
}.

Record Context : Type := {
  config : Config;
  root : Path;
  pkgmngr : Path;
  cache_dir : Path;
  workspace : Path;
  packages : Path
}.

(** [RpmRepository] of [mkosi.installer.rpm]. *)
Module Rpm.
Record RpmRepository : Type := {
  id : string;
  url : string;
  gpgurls : list string;
  enabled : bool
}.
End Rpm.
Abbreviation RpmRepository := Rpm.RpmRepository.

(** ** Collaborators

  The functions the two modules import from the rest of mkosi, as an
  interface.  Those that act take the file system and return it. *)
Class Collaborators : Type := {
  (** [mkosi.run.find_binary(name, root=...)]: a search, no write. *)
  find_binary : string -> Path -> FS -> option Path;
  (** [mkosi.run.run(cmdline, sandbox=..., env=...)]: what the process
      wrote to its standard output, or the exception for its exit
      status. *)
  run_process :
    list string -> list string -> gmap string string -> FS
    -> FS * result string;
  (** [context.sandbox(network=..., options=...)] *)
  sandbox : Context -> bool -> list string -> list string;
  (** [mkosi.sandbox.apivfs_cmd(root)] *)
  apivfs_cmd : Path -> list string;
  (** [mkosi.installer.finalize_package_manager_mounts(context)] *)
  finalize_package_manager_mounts : Context -> list string;
  (** The two halves of the context manager
      [mkosi.mounts.finalize_ephemeral_source_mounts(config)]. *)
  source_mounts_enter : Config -> FS -> FS * result (list string);
  source_mounts_exit : Config -> FS -> FS * result unit;
  (** [mkosi.installer.rpm.setup_rpm(context)] *)
  setup_rpm_fs : Context -> FS -> FS * result unit;
  (** [mkosi.installer.rpm.fixup_rpmdb_location(context)] *)
  fixup_rpmdb_location_fs : Context -> FS -> FS * result unit
}.

(** Modelled from the spec: [yes_no] of [mkosi.config] is not among the
    sources.  The tuning block is "disabling documentation installation
    per configuration": the flag is written in the two words of the
    configuration format. *)
Definition yes_no (b : bool) : string := if b then "yes" else "no".

(** Modelled from the spec: [sort_packages] of [mkosi.util] is not among
    the sources.  A package name set "must be deduplicated and sorted
    before becoming part of any command line", and "package lists in any
    generated command line are always lexicographically sorted".
    Strings are compared byte by byte. *)
Definition sort_packages (packages : list string) : list string :=
  merge_sort String.le (remove_dups packages).

(** The double quote. *)
Definition dquote : string := String "034"%char EmptyString.

Section Backends.
Context `{Collaborators}.

Definition run (cmdline sandbox_ : list string) (env : gmap string string)
  : M string :=
  call (EvRun cmdline sandbox_ env) (run_process cmdline sandbox_ env).

Definition setup_rpm (context : Context) : M unit :=
  call EvSetupRpm (setup_rpm_fs context).

Definition fixup_rpmdb_location (context : Context) : M unit :=
  call EvFixupRpmdbLocation (fixup_rpmdb_location_fs context).

Definition with_ephemeral_source_mounts {B} (cfg : Config)
    (body : list string -> M B) : M B :=
  with_ (call EvSourceMountsEnter (source_mounts_enter cfg))
        (call EvSourceMountsExit (source_mounts_exit cfg))
        body.

(** *** [mkosi/installer/apt.py] *)

Definition apt_conf_text : string :=
  Py.dedent ("                Dir::Etc " +:+ dquote +:+ "etc/apt" +:+ dquote +:+ ";
                ").

Definition setup_apt (context : Context) (repos : list string) : M unit :=
  mkdir_p (pkgmngr context </> "etc/apt") ;;
  mkdir_p (pkgmngr context </> "etc/apt/apt.conf.d") ;;
  mkdir_p (pkgmngr context </> "etc/apt/preferences.d") ;;
  mkdir_p (pkgmngr context </> "etc/apt/sources.list.d") ;;
  with_umask (Z.lnot 493) (   (* ~0o755 *)
    mkdir_p (root context </> "var/lib/dpkg") ;;
    touch (root context </> "var/lib/dpkg/status")) ;;
  mkdir_p (cache_dir context </> "lib/apt") ;;
  mkdir_p (cache_dir context </> "cache/apt") ;;
  let config_ := workspace context </> "apt.conf" in
  unless_exists config_ (write_text config_ apt_conf_text) ;;
  let sources := pkgmngr context </> "etc/apt/sources.list" in
  unless_exists sources (
    open_w sources ;;
    for_ repos (λ repo, fwrite sources (repo +:+ Py.NL))).

Definition str_optional_path (p : option Path) : string :=
  match p with
  | Some p => Paths.str p
  | None => "None"
  end.

Definition apt_cmd (context : Context) (command : string)
  : M (list string) :=
  let debarch :=
    distribution_architecture (distribution (config context))
      (architecture (config context)) in
  dpkg ← read (find_binary "dpkg" (tools (config context))) ;
  let cmdline := [
    "env";
    "APT_CONFIG=" +:+ Paths.str (workspace context </> "apt.conf");
    "DEBIAN_FRONTEND=noninteractive";
    "DEBCONF_INTERACTIVE_SEEN=true";
    "INITRD=No";
    command;
    "-o"; "APT::Architecture=" +:+ debarch;
    "-o"; "APT::Architectures=" +:+ debarch;
    "-o"; "APT::Install-Recommends="
            +:+ Py.str_bool_lower (with_recommends (config context));
    "-o"; "APT::Immediate-Configure=off";
    "-o"; "APT::Get::Assume-Yes=true";
    "-o"; "APT::Get::AutomaticRemove=true";
    "-o"; "APT::Get::Allow-Change-Held-Packages=true";
    "-o"; "APT::Get::Allow-Remove-Essential=true";
    "-o"; "APT::Sandbox::User=root";
    "-o"; "Dir::Cache=/var/cache/apt";
    "-o"; "Dir::State=/var/lib/apt";
    "-o"; "Dir::State::Status="
            +:+ Paths.str (root context </> "var/lib/dpkg/status");
    "-o"; "Dir::Log=" +:+ Paths.str (workspace context);
    "-o"; "Dir::Bin::DPkg=" +:+ str_optional_path dpkg;
    "-o"; "Debug::NoLocking=true";
    "-o"; "DPkg::Options::=--root=" +:+ Paths.str (root context);
    "-o"; "DPkg::Options::=--force-unsafe-io";
    "-o"; "DPkg::Options::=--force-architecture";
    "-o"; "DPkg::Options::=--force-depends";
    "-o"; "DPkg::Options::=--no-debsig";
    "-o"; "DPkg::Use-Pty=false";
    "-o"; "DPkg::Install::Recursive::Minimum=1000";
    "-o"; "pkgCacheGen::ForceEssential=,"
  ] in
  let cmdline :=
    if negb (repository_key_check (config context)) then
      cmdline ++ [
        "-o"; "Acquire::AllowInsecureRepositories=true";
        "-o"; "Acquire::AllowDowngradeToInsecureRepositories=true";
        "-o"; "APT::Get::AllowUnauthenticated=true"
      ]
    else cmdline in
  let cmdline :=
    if negb (with_docs (config context)) then
      cmdline ++ [
        "-o"; "DPkg::Options::=--path-exclude=/usr/share/doc/*";
        "-o"; "DPkg::Options::=--path-include=/usr/share/doc/*/copyright";
        "-o"; "DPkg::Options::=--path-exclude=/usr/share/man/*";
        "-o"; "DPkg::Options::=--path-exclude=/usr/share/groff/*";
        "-o"; "DPkg::Options::=--path-exclude=/usr/share/info/*"
      ]
    else cmdline in
  ret cmdline.

Definition invoke_apt (context : Context) (command operation : string)
    (packages_ : list string) (apivfs : bool) (mounts : list string)
  : M unit :=
  with_ephemeral_source_mounts (config context) (λ sources,
    cmd ← apt_cmd context command ;
    run (cmd ++ [operation] ++ sort_packages packages_)
        (sandbox context true (
           ["--bind"; Paths.str (root context); Paths.str (root context)]
           ++ finalize_package_manager_mounts context
           ++ sources
           ++ mounts
           ++ ["--chdir"; "/work/src"])
         ++ (if apivfs then apivfs_cmd (root context) else []))
        (environment (config context)) ;;
    ret ()).

(** The text [createrepo_apt] writes: the literal of the source, as it
    stands there. *)
Definition mkosi_packages_sources (context : Context) : string :=
  "        Enabled: yes
        Types: deb
        URIs: file:///work/packages
        Suites: " +:+ release (config context) +:+ "
        Components: main
        Trusted: yes
        ".

Definition createrepo_apt (context : Context) : M unit :=
  let index := packages context </> "Packages" in
  open_w index ;;
  out ← run ["dpkg-scanpackages"; Paths.str (packages context)]
            (sandbox context false
               ["--ro-bind"; Paths.str (packages context);
                Paths.str (packages context)])
            ∅ ;
  fwrite index out ;;
  mkdir_p (pkgmngr context </> "etc/apt/sources.list.d") ;;
  write_text
    (pkgmngr context </> "etc/apt/sources.list.d/mkosi-packages.sources")
    (mkosi_packages_sources context).

(** *** [mkosi/installer/zypper.py] *)

(** The block [setup_zypper] appends to [zypp.conf]. *)
Definition zypp_conf_text (context : Context) : string :=
  Py.dedent ("
                [main]
                rpm.install.excludedocs = "
                +:+ yes_no (negb (with_docs (config context))) +:+ "
                repo.refresh.delay = " +:+ Py.str_nat (48 * 60) +:+ "
                ").

(** The first part of the block of one repository. *)
Definition repo_header (repo : RpmRepository) : string :=
  Py.dedent ("                        [" +:+ Rpm.id repo +:+ "]
                        name=" +:+ Rpm.id repo +:+ "
                        " +:+ Rpm.url repo +:+ "
                        gpgcheck=1
                        enabled="
                        +:+ Py.str_nat (Py.int_of_bool (Rpm.enabled repo)) +:+ "
                        autorefresh=1
                        keeppackages=1
                        ").

(** The body of the loop over [enumerate(repo.gpgurls)]. *)
Definition write_gpgurl (f : Path) (entry : nat * string) : M unit :=
  let '(i, url_) := entry in
  fwrite f (if bool_decide (i = 0) then "gpgkey="
            else Py.spaces (String.length "gpgkey=")) ;;
  fwrite f (url_ +:+ Py.NL).

(** The body of the loop over [repos]. *)
Definition write_repo (f : Path) (repo : RpmRepository) : M unit :=
  fwrite f (repo_header repo) ;;
  for_ (enumerate (Rpm.gpgurls repo)) (write_gpgurl f).

Definition setup_zypper (context : Context) (repos : list RpmRepository)
  : M unit :=
  let config_ := pkgmngr context </> "etc/zypp/zypp.conf" in
  mkdir_p (Paths.parent config_) ;;
  mkdir_p (cache_dir context </> "cache/zypp") ;;
  (open_a config_ ;;
   fwrite config_ (zypp_conf_text context)) ;;
  let repofile := pkgmngr context </> "etc/zypp/repos.d/mkosi.repo" in
  unless_exists repofile (
    mkdir_p (Paths.parent repofile) ;;
    open_w repofile ;;
    for_ repos (write_repo repofile)) ;;
  setup_rpm context.

Definition zypper_cmd (context : Context) : list string :=
  [
    "env";
    "ZYPP_CONF=/etc/zypp/zypp.conf";
    "HOME=/";
    "zypper";
    "--installroot=" +:+ Paths.str (root context);
    "--cache-dir=/var/cache/zypp";
    if repository_key_check (config context)
    then "--gpg-auto-import-keys" else "--no-gpg-checks";
    "--non-interactive"
].

Definition invoke_zypper (context : Context) (verb : string)
    (packages_ options : list string) (apivfs : bool) : M unit :=
  with_ephemeral_source_mounts (config context) (λ sources,
    run (zypper_cmd context ++ [verb] ++ options ++ sort_packages packages_)
        (sandbox context true (
           ["--bind"; Paths.str (root context); Paths.str (root context)]
           ++ finalize_package_manager_mounts context
           ++ sources
           ++ ["--chdir"; "/work/src"])
         ++ (if apivfs then apivfs_cmd (root context) else []))
        (environment (config context)) ;;
    ret ()) ;;
  fixup_rpmdb_location context.

Definition mkosi_packages_repo : string :=
  Py.dedent ("            [mkosi-packages]
            name=mkosi-packages
            gpgcheck=0
            enabled=1
            baseurl=file:///work/packages
            autorefresh=0
            priority=50
            ").

Definition createrepo_zypper (context : Context) : M unit :=
  run ["createrepo_c"; Paths.str (packages context)]
      (sandbox context false
         ["--bind"; Paths.str (packages context);
          Paths.str (packages context)])
      ∅ ;;
  mkdir_p (pkgmngr context </> "etc/zypp/repos.d") ;;
  write_text (pkgmngr context </> "etc/zypp/repos.d/mkosi-packages.repo")
             mkosi_packages_repo.

End Backends.

(** ** Reading an argument vector *)

(** The values of the [-o] options of a vector: every element that
  stands right after a ["-o"]. *)
Fixpoint options_of (v : list string) : list string :=
  match v with
  | a :: r =>
    match r with
    | b :: _ => if String.eqb a "-o" then b :: options_of r else options_of r
    | [] => []
    end
  | [] => []
  end.

(** The five path filters handed to dpkg when documentation is left out. *)
Definition docs_flags : list string := [
  "DPkg::Options::=--path-exclude=/usr/share/doc/*";
  "DPkg::Options::=--path-include=/usr/share/doc/*/copyright";
  "DPkg::Options::=--path-exclude=/usr/share/man/*";
  "DPkg::Options::=--path-exclude=/usr/share/groff/*";
  "DPkg::Options::=--path-exclude=/usr/share/info/*"
].

Definition is_path_flag (s : string) : bool :=
  String.prefix "DPkg::Options::=--path-" s.

(** The three options that let apt use repositories without a valid
  signature. *)
Definition insecure_flags : list string := [
  "Acquire::AllowInsecureRepositories=true";
  "Acquire::AllowDowngradeToInsecureRepositories=true";
  "APT::Get::AllowUnauthenticated=true"
].

Definition is_insecure_flag (s : string) : bool :=
  existsb (String.eqb s) insecure_flags.

(** ** What a collaborator leaves alone *)

(** The entry at [p] is the same before and after. *)
Definition keeps_path {A} (f : FS -> FS * result A) (p : Path) : Prop :=
  ∀ fs, (f fs).1 !! p = fs !! p.

(** ** A reference set of collaborators, and a build context *)

Module Reference.

(** Modelled from the spec: [find_binary] of [mkosi.run] is not among
    the sources.  The argument vector "resolves and pins the path to
    the low-level installer tool", and a tool that "cannot be located"
    is a case of its own: the answer is read off the tools tree.
    Here the tool is looked for in [usr/bin], then [usr/sbin]. *)
Definition find_in_tools (name : string) (tools_ : Path) (fs : FS)
  : option Path :=
  let is_file p :=
    match Fs.lookup (tools_ ++ p) fs with
    | Some (File _) => true
    | _ => false
    end in
  if is_file ["usr"; "bin"; name] then Some ["usr"; "bin"; name]
  else if is_file ["usr"; "sbin"; name] then Some ["usr"; "sbin"; name]
  else None.

(** A process that writes [out] and leaves with [status]. *)
Definition exiting_process (status : nat) (out : string)
    (cmdline sandbox_ : list string) (env : gmap string string) (fs : FS)
  : FS * result string :=
  (fs, if bool_decide (status = 0) then Ok out
       else Raise (CalledProcessError status)).

(** Collaborators that change nothing in the file system; the external
    process leaves with [status]. *)
Definition collaborators (status : nat) : Collaborators := {|
  find_binary := find_in_tools;
  run_process := exiting_process status "";
  sandbox := λ _ network options,
    (if network then [] else ["--unshare-net"]) ++ options;
  apivfs_cmd := λ _, [];
  finalize_package_manager_mounts := λ _, [];
  source_mounts_enter := λ _ fs, (fs, Ok []);
  source_mounts_exit := λ _ fs, (fs, Ok ());
  setup_rpm_fs := λ _ fs, (fs, Ok ());
  fixup_rpmdb_location_fs := λ _ fs, (fs, Ok ())
|}.

Definition debian : Distribution :=
  {| distribution_architecture := λ a,
       if String.eqb a "x86-64" then "amd64" else a |}.

Definition a_config (docs key_check : bool) : Config := {|
  distribution := debian;
  architecture := "x86-64";
  release := "bookworm";
  with_recommends := true;
  with_docs := docs;
  repository_key_check := key_check;
  environment := ∅;
  tools := []
|}.

Definition a_context (docs key_check : bool) : Context := {|
  config := a_config docs key_check;
  root := ["work"; "root"];
  pkgmngr := ["work"; "pkgmngr"];
  cache_dir := ["work"; "cache"];
  workspace := ["work"];
  packages := ["work"; "packages"]
|}.

(** Nothing but the root directory. *)
Definition empty_world : World := mkWorld ∅ [].

(** The workspace with its directory of built packages. *)
Definition workspace_world : World :=
  mkWorld (<[["work"; "packages"] := Dir]> (<[["work"] := Dir]> ∅)) [].

(** A tools tree that holds dpkg. *)
Definition dpkg_world : World :=
  mkWorld (<[["usr"; "bin"; "dpkg"] := File ""]>
             (<[["usr"; "bin"] := Dir]> (<[["usr"] := Dir]> ∅))) [].

(** The repository of the end-to-end example. *)
Definition base_repo : RpmRepository := {|
  Rpm.id := "base";
  Rpm.url := "baseurl=http://example/repo";
  Rpm.gpgurls := ["http://example/key1"; "http://example/key2"];
  Rpm.enabled := true
|}.

End Reference.

(** ** The arguments of [run]

    What [invoke_apt] and [invoke_zypper] hand to [run], by name. *)

Definition invoke_apt_cmdline (cmd : list string) (operation : string)
  (packages_ : list string) : list string :=
  cmd ++ [operation] ++ sort_packages packages_.

Definition invoke_zypper_cmdline (context : Context) (verb : string)
  (packages_ options : list string) : list string :=
  zypper_cmd context ++ [verb] ++ options ++ sort_packages packages_.

Definition invoke_sandbox `{Collaborators} (context : Context)
  (sources mounts : list string) (apivfs : bool) : list string :=
  sandbox context true (
    ["--bind"; Paths.str (root context); Paths.str (root context)]
    ++ finalize_package_manager_mounts context
    ++ sources
    ++ mounts
    ++ ["--chdir"; "/work/src"])
  ++ (if apivfs then apivfs_cmd (root context) else []).

(** The calls recorded between two worlds. *)
Definition new_calls (w w' : World) : list event :=
  drop (length (calls w)) (calls w').

(** The command lines handed to [run], in order. *)
Definition run_cmdlines (evs : list event) : list (list string) :=
  omap (λ ev, match ev with EvRun c _ _ => Some c | _ => None end) evs.

(** ** The text of the repo file

    What the loops of [setup_zypper] leave in the file, as one text. *)

(** [s1 + s2 + ...] *)
Definition cat (ss : list string) : string := foldr String.append "" ss.

(** The text has no line feed. *)
Fixpoint one_line (s : string) : bool :=
  match s with
  | "" => true
  | String c s' => negb (bool_decide (c = Py.nl)) && one_line s'
  end.

(** What one turn of the loop over [enumerate(repo.gpgurls)] writes. *)
Definition gpgkey_line (entry : nat * string) : string :=
  (if bool_decide (entry.1 = 0) then "gpgkey="
   else Py.spaces (String.length "gpgkey="))
  +:+ entry.2 +:+ Py.NL.

(** What the whole loop writes. *)
Definition gpgkey_text (urls : list string) : string :=
  cat (gpgkey_line <$> enumerate urls).

(** What one turn of the loop over [repos] writes. *)
Definition repo_text (repo : RpmRepository) : string :=
  repo_header repo +:+ gpgkey_text (Rpm.gpgurls repo).

(** ** Directories on the way to a path *)

(** Every entry between [pre] and [pre ++ rest] is a directory. *)
Fixpoint all_dirs (pre : Path) (rest : list string) (fs : FS) : Prop :=
  match rest with
  | [] => True
  | c :: rest' => fs !! (pre ++ [c]) = Some Dir ∧ all_dirs (pre ++ [c]) rest' fs
  end.

(** Nothing is removed and no directory becomes a file. *)
Definition grows (fs fs' : FS) : Prop :=
  ∀ q, (fs !! q = Some Dir → fs' !! q = Some Dir)
       ∧ (is_Some (fs !! q) → is_Some (fs' !! q)).

(** ** What a computation does to the file system *)

(** It only grows the file system. *)
Definition monotone {A} (m : M A) : Prop :=
  ∀ w, grows (nodes w) (nodes (m w).1).

(** It leaves the entry at [q] as it is, when there is one. *)
Definition holds {A} (q : Path) (m : M A) : Prop :=
  ∀ w n, nodes w !! q = Some n → nodes (m w).1 !! q = Some n.

(** When it returns, [p] exists. *)
Definition ensures (p : Path) (m : M unit) : Prop :=
  ∀ w w', m w = (w', Ok ()) → Fs.exists_ p (nodes w') = true.

(** It returns, and all it does is put [t] at the end of the file [f],
    when that file is there. *)
Definition appends (f : Path) (m : M unit) (t : string) : Prop :=
  ∀ w c, nodes w !! f = Some (File c) →
  m w = (mkWorld (<[f := File (c +:+ t)]> (nodes w)) (calls w), Ok ()).

(** Once it has returned, running it again changes nothing and returns,
    also after the file system has grown. *)
Definition settles (m : M unit) : Prop :=
  ∀ w w', m w = (w', Ok ()) →
  ∀ w'', grows (nodes w') (nodes w'') → m w'' = (w'', Ok ()).

(** ** More readings of an argument vector *)

(** The vector is a run of [-o] options, each with its value. *)
Fixpoint paired (v : list string) : bool :=
  match v with
  | [] => true
  | a :: r =>
      match r with
      | _ :: r' => String.eqb a "-o" && paired r'
      | [] => false
      end
  end.

(** The values of the options that set [key]. *)
Definition options_for (key : string) (v : list string) : list string :=
  List.filter (String.prefix key) (options_of v).

(** ** More of what a computation does to the file system *)

(** It leaves the entry at [q] exactly as it is, there or not. *)
Definition leaves {A} (q : Path) (m : M A) : Prop :=
  ∀ w, nodes (m w).1 !! q = nodes w !! q.

(** Where there is no entry at [q], or a directory, it puts no file. *)
Definition unwritten {A} (q : Path) (m : M A) : Prop :=
  ∀ w, nodes w !! q = None ∨ nodes w !! q = Some Dir →
  nodes (m w).1 !! q = None ∨ nodes (m w).1 !! q = Some Dir.

(** Where there is no file at [q], the file there when it returns holds
    [text]. *)
Definition writes (q : Path) (m : M unit) (text : string) : Prop :=
  ∀ w w', nodes w !! q = None ∨ nodes w !! q = Some Dir →
  m w = (w', Ok ()) →
  nodes w' !! q = Some Dir ∨ nodes w' !! q = Some (File text).

(** When it returns, [p] is a directory. *)
Definition ensures_dir (p : Path) (m : M unit) : Prop :=
  ∀ w w', m w = (w', Ok ()) → nodes w' !! p = Some Dir.

(** It calls no collaborator. *)
Definition silent {A} (m : M A) : Prop :=
  ∀ w, calls (m w).1 = calls w.

(** ** [textwrap.dedent] on lines *)

(** [Py.dedent] after the text is split: the part that works line by
    line. *)
Definition dedent_lines (lines : list string) : string :=
  let ls := Py.normalize_blank_line <$> lines in
  match Py.find_margin ls with
  | Some (String c m) => Py.join_lines (Py.remove_margin (String c m) <$> ls)
  | _ => Py.join_lines ls
  end.

(** A line made of spaces and tabs only comes out empty. *)
Definition blank_to_empty (l : string) : string :=
  if Py.all_blank l then "" else l.

(** ** More sample builds *)

Module Sample.

(** Collaborators like the reference ones, with a process that writes
    [out], and source mounts that fail when [mounts_error] says so. *)
Definition collaborators (status : nat) (out : string)
    (mounts_error : option exn) : Collaborators := {|
  find_binary := Reference.find_in_tools;
  run_process := Reference.exiting_process status out;
  sandbox := λ _ network options,
    (if network then [] else ["--unshare-net"]) ++ options;
  apivfs_cmd := λ _, [];
  finalize_package_manager_mounts := λ _, [];
  source_mounts_enter := λ _ fs,
    (fs, match mounts_error with Some e => Raise e | None => Ok [] end);
  source_mounts_exit := λ _ fs, (fs, Ok ());
  setup_rpm_fs := λ _ fs, (fs, Ok ());
  fixup_rpmdb_location_fs := λ _ fs, (fs, Ok ())
|}.

(** An overlay that already has a source list and a repo file. *)
Definition configured_world : World :=
  mkWorld
    (<[["work"; "pkgmngr"; "etc"; "zypp"; "repos.d"; "mkosi.repo"]
       := File "[old]
"]>
       (<[["work"; "pkgmngr"; "etc"; "apt"; "sources.list"]
          := File "deb http://old/ stable main
"]> ∅)) [].

(** An overlay where [zypp.conf] is a directory. *)
Definition conf_directory_world : World :=
  mkWorld (<[["work"; "pkgmngr"; "etc"; "zypp"; "zypp.conf"] := Dir]> ∅) [].

End Sample.

(** * Properties *)

(** ** The argument vectors *)

(** The monad, unfolded. *)
Ltac run_vector :=
  unfold apt_cmd, mbind, M_bind, bind, read, mret, M_ret, ret;
  eexists; split; [reflexivity|].

(** Appending to a text that starts with known characters. *)
Ltac known_prefixes := cbv [String.append]; simpl.

(** Membership in a list that is written out. *)
Ltac in_list :=
  first [apply list_elem_of_here | apply list_elem_of_further; in_list].

Ltac not_in_list :=
  let Hin := fresh "Hin" in
  intros Hin;
  repeat (apply elem_of_cons in Hin as [Hin|Hin]; [discriminate Hin|]);
  by apply elem_of_nil in Hin.

Section Vectors.
Context `{Collaborators}.

(** The vector is built without a write and never fails: the one thing
    it takes from the file system is where dpkg is. *)
Lemma apt_cmd_run (context : Context) (command : string) (w : World) :
  ∃ v, apt_cmd context command w = (w, Ok v).
Proof.
  unfold apt_cmd, mbind, M_bind, bind, read, mret, M_ret, ret.
  eexists. reflexivity.
Qed.

Lemma apt_cmd_same_dpkg (context : Context) (command : string) (w1 w2 : World) :
  find_binary "dpkg" (tools (config context)) (nodes w1)
  = find_binary "dpkg" (tools (config context)) (nodes w2) →
  (apt_cmd context command w1).2 = (apt_cmd context command w2).2.
Proof.
  intros Hdpkg. unfold apt_cmd, mbind, M_bind, bind, read, mret, M_ret, ret.
  cbn [snd]. rewrite Hdpkg. reflexivity.
Qed.

(** C4: with documentation left out, the [-o] options of the vector that
    set a dpkg path filter are the five documented ones, each once, and
    all five are in the vector; with documentation kept, no [-o] option
    sets a path filter and none of the five is the value of one. *)
Theorem apt_cmd_docs_toggle (context : Context) (command : string) (w : World) :
  ∃ v, apt_cmd context command w = (w, Ok v) ∧
    List.filter is_path_flag (options_of v)
    = (if with_docs (config context) then [] else docs_flags) ∧
    if with_docs (config context)
    then Forall (λ f, f ∉ options_of v) docs_flags
    else Forall (λ f, f ∈ v) docs_flags.
Proof.
  run_vector.
  destruct (with_docs (config context)), (repository_key_check (config context));
    known_prefixes; destruct (String.eqb command "-o"); simpl;
    (split; [reflexivity|]); repeat constructor;
    first [in_list | not_in_list].
Qed.

(** C5: without the repository key check the [-o] options of the apt
    vector hold the three insecure-repository options, each once, and
    the zypper vector has [--no-gpg-checks] and not
    [--gpg-auto-import-keys]; with the check no [-o] option of the apt
    vector is one of the three and the zypper vector has
    [--gpg-auto-import-keys] and not [--no-gpg-checks]. *)
Theorem trust_toggle (context : Context) (command : string) (w : World) :
  ∃ v, apt_cmd context command w = (w, Ok v) ∧
    List.filter is_insecure_flag (options_of v)
    = (if repository_key_check (config context) then [] else insecure_flags) ∧
    if repository_key_check (config context)
    then Forall (λ f, f ∉ options_of v) insecure_flags
         ∧ "--gpg-auto-import-keys" ∈ zypper_cmd context
         ∧ "--no-gpg-checks" ∉ zypper_cmd context
    else Forall (λ f, f ∈ v) insecure_flags
         ∧ "--no-gpg-checks" ∈ zypper_cmd context
         ∧ "--gpg-auto-import-keys" ∉ zypper_cmd context.
Proof.
  run_vector. unfold zypper_cmd.
  destruct (with_docs (config context)), (repository_key_check (config context));
    known_prefixes; destruct (String.eqb command "-o"); simpl;
    (split; [reflexivity|]); (split; [|split]); repeat constructor;
    first [in_list | not_in_list].
Qed.

(** C2, as amended: [apt_cmd] returns a vector, writes nothing and
    records no call, and two runs in file systems that give the same
    answer for dpkg return the same vector; [zypper_cmd] is fixed by the
    root path and the key check of its context. *)
Theorem build_invocation_inputs (context : Context) (command : string)
    (w1 w2 : World) (context' : Context) :
  (∃ v, apt_cmd context command w1 = (w1, Ok v)) ∧
  (find_binary "dpkg" (tools (config context)) (nodes w1)
   = find_binary "dpkg" (tools (config context)) (nodes w2) →
   (apt_cmd context command w1).2 = (apt_cmd context command w2).2) ∧
  (root context = root context' →
   repository_key_check (config context)
   = repository_key_check (config context') →
   zypper_cmd context = zypper_cmd context').
Proof.
  split; [apply apt_cmd_run|]. split; [apply apt_cmd_same_dpkg|].
  intros Hroot Hcheck. unfold zypper_cmd. rewrite Hroot, Hcheck. reflexivity.
Qed.

End Vectors.

(** C2, as stated, fails: the same context and command give two vectors
    in two file systems, one without dpkg in the tools tree and one with
    it. *)
Lemma apt_cmd_depends_on_tools_tree :
  let C := Reference.collaborators 0 in
  ∃ v1 v2,
    apt_cmd (Reference.a_context true true) "apt-get" Reference.empty_world
    = (Reference.empty_world, Ok v1) ∧
    apt_cmd (Reference.a_context true true) "apt-get" Reference.dpkg_world
    = (Reference.dpkg_world, Ok v2) ∧
    v1 ≠ v2 ∧
    "Dir::Bin::DPkg=None" ∈ v1 ∧
    "Dir::Bin::DPkg=/usr/bin/dpkg" ∈ v2.
Proof.
  intros C. eexists. eexists.
  split; [vm_compute; reflexivity|]. split; [vm_compute; reflexivity|].
  split; [discriminate|]. split; in_list.
Qed.

Lemma build_invocation_inputs_witness :
  let C := Reference.collaborators 0 in
  (apt_cmd (Reference.a_context true true) "apt-get" Reference.empty_world).2
  = (apt_cmd (Reference.a_context true true) "apt-get"
       (mkWorld (<[["srv"] := Dir]> ∅) [])).2
  ∧ zypper_cmd (Reference.a_context true true)
    = zypper_cmd (Reference.a_context false true).
Proof.
  intros C.
  destruct (build_invocation_inputs (Reference.a_context true true) "apt-get"
              Reference.empty_world (mkWorld (<[["srv"] := Dir]> ∅) [])
              (Reference.a_context false true)) as (_ & Hapt & Hzypper).
  split; [apply Hapt; vm_compute; reflexivity
         | apply Hzypper; reflexivity].
Defined.

(** ** Package lists *)

Section Packages.

Lemma sort_packages_elem (pk : list string) (x : string) :
  x ∈ sort_packages pk ↔ x ∈ pk.
Proof.
  unfold sort_packages.
  rewrite (merge_sort_Permutation String.le). apply elem_of_remove_dups.
Qed.

Lemma sort_packages_NoDup (pk : list string) : NoDup (sort_packages pk).
Proof.
  unfold sort_packages.
  rewrite (merge_sort_Permutation String.le). apply NoDup_remove_dups.
Qed.

Lemma sort_packages_same_names (pk1 pk2 : list string) :
  (∀ x, x ∈ pk1 ↔ x ∈ pk2) → sort_packages pk1 = sort_packages pk2.
Proof.
  intros Hsame. unfold sort_packages.
  apply (Sorted_unique String.le); [apply Sorted_merge_sort, _..|].
  rewrite !(merge_sort_Permutation String.le).
  apply NoDup_Permutation; [apply NoDup_remove_dups..|].
  intros x. rewrite !elem_of_remove_dups. apply Hsame.
Qed.

(** Sorted and free of repetitions is sorted strictly. *)
Lemma StronglySorted_strict (l : list string) :
  StronglySorted String.le l → NoDup l → StronglySorted (strict String.le) l.
Proof.
  induction 1 as [|x l Hl IH Hx]; intros Hnd; [constructor|].
  apply NoDup_cons in Hnd as [Hnotin Hnd].
  constructor; [auto|].
  rewrite Forall_forall in Hx |- *. intros y Hy. split; [auto|].
  intros Hyx. assert (x = y) by (apply (anti_symm String.le); auto).
  subst. contradiction.
Qed.

Lemma sort_packages_strict (pk : list string) :
  StronglySorted (strict String.le) (sort_packages pk).
Proof.
  apply StronglySorted_strict; [|apply sort_packages_NoDup].
  unfold sort_packages. apply StronglySorted_merge_sort; apply _.
Qed.

End Packages.

(** ** Invocations *)

Ltac unfold_monad :=
  unfold with_ephemeral_source_mounts, with_, run, fixup_rpmdb_location,
    setup_rpm, call, mbind, M_bind, bind, read, mret, M_ret, ret in *.

Lemma new_calls_app (w : World) (fs : FS) (evs : list event) :
  new_calls w (mkWorld fs (calls w ++ evs)) = evs.
Proof. unfold new_calls. simpl. apply drop_app_length. Qed.

Section Invocations.
Context `{Collaborators}.

(** [invoke_zypper], call by call. *)
Lemma invoke_zypper_steps (context : Context) (verb : string)
    (pk options : list string) (apivfs : bool) (w : World) :
  invoke_zypper context verb pk options apivfs w =
  match source_mounts_enter (config context) (nodes w) with
  | (fs1, Raise e) => (mkWorld fs1 (calls w ++ [EvSourceMountsEnter]), Raise e)
  | (fs1, Ok sources) =>
      let cmdline := invoke_zypper_cmdline context verb pk options in
      let sandbox_ := invoke_sandbox context sources [] apivfs in
      let env := environment (config context) in
      let evs := [EvSourceMountsEnter; EvRun cmdline sandbox_ env;
                  EvSourceMountsExit] in
      match run_process cmdline sandbox_ env fs1 with
      | (fs2, r) =>
          match source_mounts_exit (config context) fs2 with
          | (fs3, Raise e) => (mkWorld fs3 (calls w ++ evs), Raise e)
          | (fs3, Ok _) =>
              match r with
              | Raise e => (mkWorld fs3 (calls w ++ evs), Raise e)
              | Ok _ =>
                  let '(fs4, r4) := fixup_rpmdb_location_fs context fs3 in
                  (mkWorld fs4 (calls w ++ evs ++ [EvFixupRpmdbLocation]), r4)
              end
          end
      end
  end.
Proof.
  unfold invoke_zypper, invoke_zypper_cmdline, invoke_sandbox. unfold_monad.
  simpl.
  destruct (source_mounts_enter _ _) as [fs1 [sources|e]]; simpl;
    [|reflexivity].
  destruct (run_process _ _ _ _) as [fs2 [out|e]]; simpl;
    destruct (source_mounts_exit _ _) as [fs3 [[]|e']]; simpl;
    rewrite <- ?app_assoc; reflexivity.
Qed.

(** C10: when the process started by [invoke_zypper] fails, the
    invocation raises and [fixup_rpmdb_location] is not among the calls
    it made; and whenever [fixup_rpmdb_location] is among the calls it
    made, the process had returned, and the fix-up is the last call,
    after the run. *)
Theorem invoke_zypper_fixup_after_success (context : Context) (verb : string)
    (pk options : list string) (apivfs : bool) (w : World) :
  let w' := (invoke_zypper context verb pk options apivfs w).1 in
  let r := (invoke_zypper context verb pk options apivfs w).2 in
  let cmdline := invoke_zypper_cmdline context verb pk options in
  let env := environment (config context) in
  (∀ fs1 sources fs2 e,
     source_mounts_enter (config context) (nodes w) = (fs1, Ok sources) →
     run_process cmdline (invoke_sandbox context sources [] apivfs) env fs1
     = (fs2, Raise e) →
     (∃ e', r = Raise e') ∧
     (EvFixupRpmdbLocation ∉ new_calls w w') ∧
     new_calls w w'
     = [EvSourceMountsEnter;
        EvRun cmdline (invoke_sandbox context sources [] apivfs) env;
        EvSourceMountsExit]) ∧
  (EvFixupRpmdbLocation ∈ new_calls w w' →
   ∃ fs1 sources fs2 out,
     source_mounts_enter (config context) (nodes w) = (fs1, Ok sources) ∧
     run_process cmdline (invoke_sandbox context sources [] apivfs) env fs1
     = (fs2, Ok out) ∧
     new_calls w w'
     = [EvSourceMountsEnter;
        EvRun cmdline (invoke_sandbox context sources [] apivfs) env;
        EvSourceMountsExit; EvFixupRpmdbLocation]).
Proof.
  intros w' r cmdline env. subst w' r.
  rewrite invoke_zypper_steps. fold cmdline env. split.
  - intros fs1 sources fs2 e -> . simpl. fold cmdline env. intros ->.
    destruct (source_mounts_exit _ _) as [fs3 [[]|e']]; simpl;
      rewrite new_calls_app; (split; [eauto|]); (split; [|reflexivity]);
      not_in_list.
  - destruct (source_mounts_enter _ _) as [fs1 [sources|e]]; simpl.
    2: { rewrite new_calls_app. intros Hin. exfalso. revert Hin. not_in_list. }
    fold cmdline env.
    destruct (run_process _ _ _ _) as [fs2 [out|e]] eqn:Hrun;
      destruct (source_mounts_exit _ _) as [fs3 [[]|e']]; simpl;
      try (rewrite new_calls_app; intros Hin; exfalso; revert Hin;
           not_in_list).
    destruct (fixup_rpmdb_location_fs _ _) as [fs4 r4]. simpl.
    rewrite new_calls_app. intros _. exists fs1, sources, fs2, out. auto.
Qed.

(** [invoke_apt] after the source mounts are in place. *)
Lemma invoke_apt_steps (context : Context) (command operation : string)
    (pk : list string) (apivfs : bool) (mounts : list string) (w : World)
    (fs1 : FS) (sources : list string) :
  source_mounts_enter (config context) (nodes w) = (fs1, Ok sources) →
  let w1 := mkWorld fs1 (calls w ++ [EvSourceMountsEnter]) in
  ∃ v, apt_cmd context command w1 = (w1, Ok v) ∧
    let cmdline := invoke_apt_cmdline v operation pk in
    let sandbox_ := invoke_sandbox context sources mounts apivfs in
    let env := environment (config context) in
    let evs := [EvSourceMountsEnter; EvRun cmdline sandbox_ env;
                EvSourceMountsExit] in
    invoke_apt context command operation pk apivfs mounts w =
    match run_process cmdline sandbox_ env fs1 with
    | (fs2, r) =>
        match source_mounts_exit (config context) fs2 with
        | (fs3, Raise e) => (mkWorld fs3 (calls w ++ evs), Raise e)
        | (fs3, Ok _) =>
            (mkWorld fs3 (calls w ++ evs),
             match r with Ok _ => Ok () | Raise e => Raise e end)
        end
    end.
Proof.
  intros Henter w1. destruct (apt_cmd_run context command w1) as [v Hv].
  exists v. split; [exact Hv|].
  unfold invoke_apt, invoke_apt_cmdline, invoke_sandbox. unfold_monad.
  rewrite Henter. fold w1. rewrite Hv. cbn [nodes calls w1].
  destruct (run_process _ _ _ _) as [fs2 [out|e]]; cbn [nodes calls];
    destruct (source_mounts_exit _ _) as [fs3 [[]|e']]; cbn [nodes calls];
    rewrite <- ?app_assoc; reflexivity.
Qed.

(** C6: the package names on the command line are in strict
    lexicographic order, hence sorted and without repetition, and are
    the names asked for; two orders of the same names give the same
    invocation, for apt and for zypper; and the command line handed to
    [run] ends with the sorted names. *)
Theorem invoke_packages_sorted (context : Context)
    (command operation verb : string) (options mounts : list string)
    (apivfs : bool) (pk1 pk2 : list string) (w : World) :
  pk1 ≡ₚ pk2 →
  StronglySorted (strict String.le) (sort_packages pk1) ∧
  (∀ x, x ∈ sort_packages pk1 ↔ x ∈ pk1) ∧
  sort_packages pk1 = sort_packages pk2 ∧
  invoke_apt context command operation pk1 apivfs mounts w
  = invoke_apt context command operation pk2 apivfs mounts w ∧
  invoke_zypper context verb pk1 options apivfs w
  = invoke_zypper context verb pk2 options apivfs w ∧
  (∀ fs1 sources,
     source_mounts_enter (config context) (nodes w) = (fs1, Ok sources) →
     run_cmdlines
       (new_calls w (invoke_zypper context verb pk1 options apivfs w).1)
     = [zypper_cmd context ++ [verb] ++ options ++ sort_packages pk1] ∧
     ∃ v, apt_cmd context command
            (mkWorld fs1 (calls w ++ [EvSourceMountsEnter]))
          = (mkWorld fs1 (calls w ++ [EvSourceMountsEnter]), Ok v) ∧
          run_cmdlines
            (new_calls w
               (invoke_apt context command operation pk1 apivfs mounts w).1)
          = [v ++ [operation] ++ sort_packages pk1]).
Proof.
  intros Hperm.
  assert (sort_packages pk1 = sort_packages pk2) as Hsort.
  { apply sort_packages_same_names. intros x. by rewrite Hperm. }
  split; [apply sort_packages_strict|].
  split; [apply sort_packages_elem|].
  split; [exact Hsort|].
  split; [unfold invoke_apt; rewrite Hsort; reflexivity|].
  split; [unfold invoke_zypper; rewrite Hsort; reflexivity|].
  intros fs1 sources Henter. split.
  - rewrite invoke_zypper_steps, Henter. simpl.
    destruct (run_process _ _ _ _) as [fs2 [out|e]];
      destruct (source_mounts_exit _ _) as [fs3 [[]|e']]; simpl;
      try destruct (fixup_rpmdb_location_fs _ _) as [fs4 r4]; simpl;
      rewrite new_calls_app; reflexivity.
  - destruct (invoke_apt_steps context command operation pk1 apivfs mounts
                w fs1 sources Henter) as (v & Hv & Hsteps).
    exists v. split; [exact Hv|]. simpl in Hsteps. rewrite Hsteps.
    destruct (run_process _ _ _ _) as [fs2 [out|e]];
      destruct (source_mounts_exit _ _) as [fs3 [[]|e']]; simpl;
      rewrite new_calls_app; reflexivity.
Qed.

End Invocations.

Lemma invoke_zypper_fixup_after_success_witness :
  (let C := Reference.collaborators 1 in
   EvFixupRpmdbLocation
   ∉ new_calls Reference.empty_world
       (invoke_zypper (Reference.a_context true true) "install" ["vim"] []
          true Reference.empty_world).1) ∧
  (let C := Reference.collaborators 0 in
   ∃ fs2 out,
     run_process
       (invoke_zypper_cmdline (Reference.a_context true true) "install"
          ["vim"] [])
       (invoke_sandbox (Reference.a_context true true) [] [] true) ∅ ∅
     = (fs2, Ok out)).
Proof.
  split.
  - intros C.
    destruct (invoke_zypper_fixup_after_success
                (Reference.a_context true true) "install" ["vim"] [] true
                Reference.empty_world) as [Hfail _].
    destruct (Hfail ∅ [] ∅ (CalledProcessError 1)) as (_ & Hnot & _);
      [reflexivity | reflexivity | exact Hnot].
  - intros C.
    destruct (invoke_zypper_fixup_after_success
                (Reference.a_context true true) "install" ["vim"] [] true
                Reference.empty_world) as [_ Hran].
    destruct Hran as (fs1 & sources & fs2 & out & Henter & Hrun & _).
    + vm_compute. repeat constructor.
    + injection Henter as <- <-. exists fs2, out. exact Hrun.
Defined.

Lemma invoke_packages_sorted_witness :
  let C := Reference.collaborators 0 in
  sort_packages ["vim"; "bash"; "vim"; "apt"]
  = sort_packages ["apt"; "vim"; "vim"; "bash"]
  ∧ sort_packages ["vim"; "bash"; "vim"; "apt"] = ["apt"; "bash"; "vim"].
Proof.
  intros C. split; [|vm_compute; reflexivity].
  refine (proj1 (proj2 (proj2 (invoke_packages_sorted
    (Reference.a_context true true) "apt-get" "install" "install" [] [] true
    ["vim"; "bash"; "vim"; "apt"] ["apt"; "vim"; "vim"; "bash"]
    Reference.empty_world _)))).
  apply (bool_decide_unpack _). vm_compute. exact I.
Defined.

(** ** The file system operations *)

Section FsFacts.
Implicit Types (fs : FS) (p q pre : Path) (n : node).

Lemma grows_refl fs : grows fs fs.
Proof. intros q. auto. Qed.

Lemma grows_trans fs1 fs2 fs3 : grows fs1 fs2 → grows fs2 fs3 → grows fs1 fs3.
Proof.
  intros H12 H23 q. destruct (H12 q), (H23 q). auto.
Qed.

(** An operation that leaves what is there grows the file system. *)
Lemma grows_keeps fs fs' :
  (∀ q n, fs !! q = Some n → fs' !! q = Some n) → grows fs fs'.
Proof.
  intros Hkeep q. split; [apply Hkeep|]. intros [n Hn]. eauto.
Qed.

Lemma lookup_nonempty p fs : p ≠ [] → Fs.lookup p fs = fs !! p.
Proof. destruct p; [done|reflexivity]. Qed.

Lemma lookup_snoc pre c fs : Fs.lookup (pre ++ [c]) fs = fs !! (pre ++ [c]).
Proof. apply lookup_nonempty. by destruct pre. Qed.

(** *** [mkdir] *)

Lemma mkdir_from_keeps pre rest fs q n :
  fs !! q = Some n → (Fs.mkdir_from pre rest fs).1 !! q = Some n.
Proof.
  revert pre fs. induction rest as [|c rest IH]; intros pre fs Hq; [done|].
  simpl. destruct (fs !! (pre ++ [c])) as [[|content]|] eqn:Hc; simpl; auto.
  apply IH. rewrite lookup_insert_ne; [done|]. congruence.
Qed.

(** An entry is as before, or a new directory. *)
Lemma mkdir_from_lookup pre rest fs q :
  (Fs.mkdir_from pre rest fs).1 !! q = fs !! q
  ∨ (fs !! q = None ∧ (Fs.mkdir_from pre rest fs).1 !! q = Some Dir).
Proof.
  revert pre fs. induction rest as [|c rest IH]; intros pre fs; [by left|].
  simpl. destruct (fs !! (pre ++ [c])) as [[|content]|] eqn:Hc; simpl; auto.
  destruct (decide (q = pre ++ [c])) as [->|Hne].
  - right. split; [done|]. apply mkdir_from_keeps, lookup_insert_eq.
  - destruct (IH (pre ++ [c]) (<[pre ++ [c] := Dir]> fs)) as [Heq|[Hnone Hdir]].
    + left. rewrite Heq. by apply lookup_insert_ne.
    + right. split; [|done]. by rewrite lookup_insert_ne in Hnone.
Qed.

(** Entries off the way to the path are not touched. *)
Lemma mkdir_from_outside pre rest fs q :
  ¬ q `prefix_of` pre ++ rest →
  (Fs.mkdir_from pre rest fs).1 !! q = fs !! q.
Proof.
  revert pre fs. induction rest as [|c rest IH]; intros pre fs Hq; [done|].
  assert (¬ q `prefix_of` (pre ++ [c]) ++ rest) as Hq'
    by (by rewrite <- app_assoc).
  simpl. destruct (fs !! (pre ++ [c])) as [[|content]|] eqn:Hc; simpl; auto.
  rewrite IH by done. apply lookup_insert_ne. intros <-. apply Hq.
  exists rest. by rewrite <- app_assoc.
Qed.

Lemma mkdir_from_ok pre rest fs fs' :
  Fs.mkdir_from pre rest fs = (fs', Ok ()) → all_dirs pre rest fs'.
Proof.
  revert pre fs. induction rest as [|c rest IH]; intros pre fs Hrun; [done|].
  simpl in Hrun. simpl.
  destruct (fs !! (pre ++ [c])) as [[|content]|] eqn:Hc; [| |].
  - split; [|by eapply IH].
    replace fs' with (Fs.mkdir_from (pre ++ [c]) rest fs).1 by (by rewrite Hrun).
    by apply mkdir_from_keeps.
  - by destruct rest.
  - split; [|by eapply IH].
    replace fs' with
      (Fs.mkdir_from (pre ++ [c]) rest (<[pre ++ [c] := Dir]> fs)).1
      by (by rewrite Hrun).
    apply mkdir_from_keeps, lookup_insert_eq.
Qed.

Lemma mkdir_from_noop pre rest fs :
  all_dirs pre rest fs → Fs.mkdir_from pre rest fs = (fs, Ok ()).
Proof.
  revert pre. induction rest as [|c rest IH]; intros pre Hdirs; [done|].
  destruct Hdirs as [Hc Hrest]. simpl. rewrite Hc. by apply IH.
Qed.

Lemma all_dirs_grows pre rest fs fs' :
  grows fs fs' → all_dirs pre rest fs → all_dirs pre rest fs'.
Proof.
  intros Hgrows. revert pre.
  induction rest as [|c rest IH]; intros pre Hdirs; [done|].
  destruct Hdirs as [Hc Hrest]. split; [by apply Hgrows|by apply IH].
Qed.

(** The last directory on the way is the path itself. *)
Lemma all_dirs_last pre rest fs :
  rest ≠ [] → all_dirs pre rest fs → fs !! (pre ++ rest) = Some Dir.
Proof.
  revert pre. induction rest as [|c rest IH]; intros pre Hne Hdirs; [done|].
  destruct Hdirs as [Hc Hrest]. destruct rest as [|c' rest]; [done|].
  replace (pre ++ c :: c' :: rest) with ((pre ++ [c]) ++ c' :: rest)
    by (by rewrite <- app_assoc).
  by apply IH.
Qed.

End FsFacts.

Section FsSteps.
Implicit Types (fs : FS) (p q : Path) (n : node) (s : string).

Lemma create_other p q n fs :
  q ≠ p → (Fs.create p n fs).1 !! q = fs !! q.
Proof.
  intros Hne. unfold Fs.create.
  destruct (Fs.lookup (Paths.parent p) fs) as [[|content]|]; simpl; auto.
  by apply lookup_insert_ne.
Qed.

Lemma create_ok p n fs fs' :
  Fs.create p n fs = (fs', Ok ()) → fs' = <[p := n]> fs.
Proof.
  unfold Fs.create.
  destruct (Fs.lookup (Paths.parent p) fs) as [[|content]|]; congruence.
Qed.

(** Creating where nothing is keeps what is there. *)
Lemma create_keeps p n fs q n' :
  fs !! p = None → fs !! q = Some n' → (Fs.create p n fs).1 !! q = Some n'.
Proof.
  intros Hp Hq. rewrite create_other; [done|]. congruence.
Qed.

Lemma lookup_None_raw p fs : Fs.lookup p fs = None → fs !! p = None.
Proof. destruct p; [done|auto]. Qed.

(** *** [touch] *)

Lemma touch_keeps p fs q n :
  fs !! q = Some n → (Fs.touch p fs).1 !! q = Some n.
Proof.
  intros Hq. unfold Fs.touch. destruct (Fs.lookup p fs) eqn:Hp; [done|].
  apply create_keeps; [by apply lookup_None_raw|done].
Qed.

Lemma touch_ok p fs fs' :
  Fs.touch p fs = (fs', Ok ()) → Fs.exists_ p fs' = true.
Proof.
  unfold Fs.touch, Fs.exists_. intros Hrun. apply bool_decide_eq_true.
  destruct (Fs.lookup p fs) as [n|] eqn:Hp.
  - injection Hrun as <-. rewrite Hp. eauto.
  - apply create_ok in Hrun as ->. destruct p; [eauto|].
    simpl. rewrite lookup_insert_eq. eauto.
Qed.

Lemma touch_noop p fs :
  Fs.exists_ p fs = true → Fs.touch p fs = (fs, Ok ()).
Proof.
  unfold Fs.touch, Fs.exists_. intros [n Hn]%bool_decide_eq_true.
  by rewrite Hn.
Qed.

(** *** [open] and [write] *)

Lemma open_w_other p q fs : q ≠ p → (Fs.open_w p fs).1 !! q = fs !! q.
Proof.
  intros Hne. unfold Fs.open_w.
  destruct (Fs.lookup p fs) as [[|content]|]; simpl; auto.
  - by apply lookup_insert_ne.
  - by apply create_other.
Qed.

Lemma open_w_ok p fs fs' :
  Fs.open_w p fs = (fs', Ok ()) → fs' = <[p := File ""]> fs ∧ p ≠ [].
Proof.
  unfold Fs.open_w. destruct p as [|c p]; [done|].
  destruct (Fs.lookup (c :: p) fs) as [[|content]|]; [done| |].
  - intros [= <-]. done.
  - intros ->%create_ok. done.
Qed.

Lemma open_w_grows p fs : grows fs (Fs.open_w p fs).1.
Proof.
  intros q. destruct (decide (q = p)) as [->|Hne].
  2: { rewrite open_w_other by done. auto. }
  unfold Fs.open_w. destruct p as [|c p]; [simpl; auto|].
  simpl. destruct (fs !! (c :: p)) as [[|content]|] eqn:Hp; simpl.
  - auto.
  - rewrite lookup_insert_eq. split; [done|eauto].
  - split; [done|]. by intros [? ?].
Qed.

Lemma open_a_keeps p fs q n :
  fs !! q = Some n → (Fs.open_a p fs).1 !! q = Some n.
Proof.
  intros Hq. unfold Fs.open_a.
  destruct (Fs.lookup p fs) as [[|content]|] eqn:Hp; [done..|].
  apply create_keeps; [by apply lookup_None_raw|done].
Qed.

(** On return the file is there, with the text it had. *)
Lemma open_a_ok p fs fs' :
  Fs.open_a p fs = (fs', Ok ()) →
  p ≠ [] ∧
  ((∃ c, fs !! p = Some (File c) ∧ fs' = fs)
   ∨ (fs !! p = None ∧ fs' = <[p := File ""]> fs)).
Proof.
  unfold Fs.open_a. destruct p as [|c p]; [done|].
  simpl. destruct (fs !! (c :: p)) as [[|content]|] eqn:Hp; [done| |].
  - intros [= <-]. split; [done|]. left. eauto.
  - intros ->%create_ok. split; [done|]. by right.
Qed.

Lemma write_other p s q fs : q ≠ p → (Fs.write p s fs).1 !! q = fs !! q.
Proof.
  intros Hne. unfold Fs.write.
  destruct (fs !! p) as [[|content]|]; simpl; auto.
  by apply lookup_insert_ne.
Qed.

Lemma write_file p s fs c :
  fs !! p = Some (File c) →
  Fs.write p s fs = (<[p := File (c +:+ s)]> fs, Ok ()).
Proof. intros Hp. unfold Fs.write. by rewrite Hp. Qed.

Lemma write_grows p s fs : grows fs (Fs.write p s fs).1.
Proof.
  intros q. destruct (decide (q = p)) as [->|Hne].
  2: { rewrite write_other by done. auto. }
  unfold Fs.write. destruct (fs !! p) as [[|content]|] eqn:Hp; simpl;
    rewrite ?Hp; auto.
  rewrite lookup_insert_eq. split; [done|eauto].
Qed.

Lemma grows_exists p fs fs' :
  grows fs fs' → Fs.exists_ p fs = true → Fs.exists_ p fs' = true.
Proof.
  intros Hgrows. unfold Fs.exists_. rewrite !bool_decide_eq_true.
  destruct p; [done|]. simpl. apply Hgrows.
Qed.

End FsSteps.

(** ** Computations *)

Section Computations.
Implicit Types (w : World) (p q : Path).

Lemma bind_run {A B} (m : M A) (k : A → M B) w :
  (m ≫= k) w
  = match m w with
    | (w1, Ok a) => k a w1
    | (w1, Raise e) => (w1, Raise e)
    end.
Proof. reflexivity. Qed.

Lemma bind_ok {A B} (m : M A) (k : A → M B) w w' b :
  (m ≫= k) w = (w', Ok b) →
  ∃ w1 a, m w = (w1, Ok a) ∧ k a w1 = (w', Ok b).
Proof.
  rewrite bind_run. destruct (m w) as [w1 [a|e]]; [eauto|done].
Qed.

Lemma fs_step_run (f : FS → FS * result unit) w :
  fs_step f w = (mkWorld (f (nodes w)).1 (calls w), (f (nodes w)).2).
Proof. unfold fs_step. by destruct (f (nodes w)). Qed.

Lemma fs_step_ok (f : FS → FS * result unit) w w' :
  fs_step f w = (w', Ok ()) →
  f (nodes w) = (nodes w', Ok ()) ∧ calls w' = calls w.
Proof.
  rewrite fs_step_run. destruct (f (nodes w)) as [fs r]. simpl.
  intros [= <- ->]. done.
Qed.

Lemma fs_step_noop (f : FS → FS * result unit) w :
  f (nodes w) = (nodes w, Ok ()) → fs_step f w = (w, Ok ()).
Proof. rewrite fs_step_run. intros ->. by destruct w. Qed.

Lemma path_exists_run p w :
  path_exists p w = (w, Ok (Fs.exists_ p (nodes w))).
Proof. reflexivity. Qed.

(** *** [monotone] *)

Lemma monotone_ret {A} (a : A) : monotone (mret a).
Proof. intros w. apply grows_refl. Qed.

Lemma monotone_bind {A B} (m : M A) (k : A → M B) :
  monotone m → (∀ a, monotone (k a)) → monotone (m ≫= k).
Proof.
  intros Hm Hk w. rewrite bind_run. specialize (Hm w).
  destruct (m w) as [w1 [a|e]]; [|done].
  eapply grows_trans; [exact Hm|apply Hk].
Qed.

Lemma monotone_fs_step (f : FS → FS * result unit) :
  (∀ fs, grows fs (f fs).1) → monotone (fs_step f).
Proof. intros Hf w. rewrite fs_step_run. apply Hf. Qed.

Lemma monotone_mkdir_p p : monotone (mkdir_p p).
Proof.
  apply monotone_fs_step. intros fs. apply grows_keeps.
  intros q n. apply mkdir_from_keeps.
Qed.

Lemma monotone_touch p : monotone (touch p).
Proof.
  apply monotone_fs_step. intros fs. apply grows_keeps.
  intros q n. apply touch_keeps.
Qed.

Lemma monotone_open_w p : monotone (open_w p).
Proof. apply monotone_fs_step, open_w_grows. Qed.

Lemma monotone_open_a p : monotone (open_a p).
Proof.
  apply monotone_fs_step. intros fs. apply grows_keeps.
  intros q n. apply open_a_keeps.
Qed.

Lemma monotone_fwrite p s : monotone (fwrite p s).
Proof. apply monotone_fs_step, write_grows. Qed.

Lemma monotone_path_exists p : monotone (path_exists p).
Proof. intros w. apply grows_refl. Qed.

Lemma monotone_when (c : bool) (body : M unit) :
  monotone body → monotone (when c body).
Proof. destruct c; [done|]. intros _. apply (monotone_ret ()). Qed.

Lemma monotone_for {A} (xs : list A) (body : A → M unit) :
  (∀ x, monotone (body x)) → monotone (for_ xs body).
Proof.
  intros Hbody. induction xs as [|x xs IH]; [apply (monotone_ret ())|].
  apply monotone_bind; auto.
Qed.

Lemma monotone_unless_exists p (body : M unit) :
  monotone body → monotone (unless_exists p body).
Proof.
  intros Hbody. apply monotone_bind; [apply monotone_path_exists|].
  intros e. by apply monotone_when.
Qed.

Lemma monotone_write_text p s : monotone (write_text p s).
Proof.
  apply monotone_bind; [apply monotone_open_w|].
  intros _. apply monotone_fwrite.
Qed.

(** *** [holds] *)

Lemma holds_ret {A} q (a : A) : holds q (mret a).
Proof. intros w n Hq. exact Hq. Qed.

Lemma holds_bind {A B} q (m : M A) (k : A → M B) :
  holds q m → (∀ a, holds q (k a)) → holds q (m ≫= k).
Proof.
  intros Hm Hk w n Hq. rewrite bind_run. specialize (Hm w n Hq).
  destruct (m w) as [w1 [a|e]]; [|done]. by apply Hk.
Qed.

Lemma holds_fs_step q (f : FS → FS * result unit) :
  (∀ fs n, fs !! q = Some n → (f fs).1 !! q = Some n) → holds q (fs_step f).
Proof. intros Hf w n Hq. rewrite fs_step_run. by apply Hf. Qed.

Lemma holds_mkdir_p q p : holds q (mkdir_p p).
Proof. apply holds_fs_step. intros fs n. apply mkdir_from_keeps. Qed.

Lemma holds_touch q p : holds q (touch p).
Proof. apply holds_fs_step. intros fs n. apply touch_keeps. Qed.

Lemma holds_open_a q p : holds q (open_a p).
Proof. apply holds_fs_step. intros fs n. apply open_a_keeps. Qed.

Lemma holds_open_w q p : q ≠ p → holds q (open_w p).
Proof.
  intros Hne. apply holds_fs_step. intros fs n. by rewrite open_w_other.
Qed.

Lemma holds_fwrite q p s : q ≠ p → holds q (fwrite p s).
Proof.
  intros Hne. apply holds_fs_step. intros fs n. by rewrite write_other.
Qed.

Lemma holds_path_exists q p : holds q (path_exists p).
Proof. intros w n Hq. exact Hq. Qed.

Lemma holds_when q (c : bool) (body : M unit) :
  holds q body → holds q (when c body).
Proof. destruct c; [done|]. intros _. apply (holds_ret q ()). Qed.

Lemma holds_for {A} q (xs : list A) (body : A → M unit) :
  (∀ x, holds q (body x)) → holds q (for_ xs body).
Proof.
  intros Hbody. induction xs as [|x xs IH]; [apply (holds_ret q ())|].
  apply holds_bind; auto.
Qed.

(** The write behind an existence check leaves the file that is there. *)
Lemma holds_unless_exists q (body : M unit) :
  q ≠ [] → holds q (unless_exists q body).
Proof.
  intros Hne w n Hq. unfold unless_exists. rewrite bind_run, path_exists_run.
  assert (Fs.exists_ q (nodes w) = true) as ->; [|done].
  apply bool_decide_eq_true. rewrite lookup_nonempty by done. eauto.
Qed.

Lemma holds_call {A} q (ev : event) (f : FS → FS * result A) :
  keeps_path f q → holds q (call ev f).
Proof.
  intros Hkeeps w n Hq. unfold call. specialize (Hkeeps (nodes w)).
  destruct (f (nodes w)) as [fs r]. simpl in *. congruence.
Qed.

(** *** [ensures] *)

Lemma ensures_then p (m1 m2 : M unit) :
  ensures p m1 → monotone m2 → ensures p (m1 ;; m2).
Proof.
  intros Hm1 Hm2 w w' (w1 & [] & Hrun1 & Hrun2)%bind_ok.
  eapply grows_exists; [|by eapply Hm1].
  specialize (Hm2 w1). by rewrite Hrun2 in Hm2.
Qed.

Lemma ensures_after {A} p (m : M A) (k : A → M unit) :
  (∀ a, ensures p (k a)) → ensures p (m ≫= k).
Proof.
  intros Hk w w' (w1 & a & Hrun1 & Hrun2)%bind_ok. by eapply Hk.
Qed.

Lemma ensures_touch p : ensures p (touch p).
Proof. intros w w' [Hrun _]%fs_step_ok. by eapply touch_ok. Qed.

Lemma ensures_open_w p : ensures p (open_w p).
Proof.
  intros w w' [Hrun _]%fs_step_ok. apply open_w_ok in Hrun as [-> Hne].
  apply bool_decide_eq_true. rewrite lookup_nonempty by done.
  rewrite lookup_insert_eq. eauto.
Qed.

Lemma ensures_unless_exists p (body : M unit) :
  ensures p body → ensures p (unless_exists p body).
Proof.
  intros Hbody w w'. unfold unless_exists.
  rewrite bind_run, path_exists_run.
  destruct (Fs.exists_ p (nodes w)) eqn:Hp; simpl.
  - intros [= <-]. exact Hp.
  - apply Hbody.
Qed.

(** *** [settles] *)

Lemma settles_then (m1 m2 : M unit) :
  settles m1 → settles m2 → monotone m2 → settles (m1 ;; m2).
Proof.
  intros Hm1 Hm2 Hmono w w' (w1 & [] & Hrun1 & Hrun2)%bind_ok w'' Hgrows.
  rewrite bind_run.
  rewrite (Hm1 w w1 Hrun1 w'').
  - by apply (Hm2 w1 w').
  - eapply grows_trans; [|exact Hgrows].
    specialize (Hmono w1). by rewrite Hrun2 in Hmono.
Qed.

Lemma settles_mkdir_p p : settles (mkdir_p p).
Proof.
  intros w w' [Hrun _]%fs_step_ok w'' Hgrows.
  apply fs_step_noop, mkdir_from_noop.
  eapply all_dirs_grows; [exact Hgrows|]. by eapply mkdir_from_ok.
Qed.

Lemma settles_touch p : settles (touch p).
Proof.
  intros w w' Hrun w'' Hgrows.
  apply fs_step_noop, touch_noop.
  eapply grows_exists; [exact Hgrows|]. by eapply ensures_touch.
Qed.

Lemma settles_unless_exists p (body : M unit) :
  ensures p body → settles (unless_exists p body).
Proof.
  intros Hbody w w' Hrun w'' Hgrows.
  apply ensures_unless_exists in Hrun; [|done].
  unfold unless_exists. rewrite bind_run, path_exists_run.
  by rewrite (grows_exists p _ _ Hgrows Hrun).
Qed.

End Computations.

(** ** [setup_apt] *)

Create HintDb fs.
#[local] Hint Resolve monotone_mkdir_p monotone_touch monotone_open_w
  monotone_open_a monotone_fwrite monotone_path_exists monotone_when
  monotone_for monotone_write_text monotone_unless_exists monotone_bind
  settles_then settles_mkdir_p settles_touch settles_unless_exists
  ensures_open_w ensures_then ensures_unless_exists : fs.

Section SetupApt.
Context `{Collaborators}.
Implicit Types (context : Context) (repos : list string).

Lemma monotone_write_sources p repos :
  monotone (open_w p ;; for_ repos (λ repo, fwrite p (repo +:+ Py.NL))).
Proof. auto 10 with fs. Qed.

Lemma ensures_write_text p s : ensures p (write_text p s).
Proof. unfold write_text. auto with fs. Qed.

Lemma ensures_write_sources p repos :
  ensures p (open_w p ;; for_ repos (λ repo, fwrite p (repo +:+ Py.NL))).
Proof. auto 10 with fs. Qed.

Lemma settles_setup_apt context repos : settles (setup_apt context repos).
Proof.
  unfold setup_apt, with_umask. cbv zeta.
  auto 30 using ensures_write_text, ensures_write_sources,
    monotone_write_sources with fs.
Qed.

(** After [setup_apt] the auxiliary configuration exists. *)
Lemma setup_apt_ensures_config context repos :
  ensures (workspace context </> "apt.conf") (setup_apt context repos).
Proof.
  unfold setup_apt, with_umask. cbv zeta.
  do 7 (apply ensures_after; intros _).
  auto 10 using ensures_write_text, monotone_write_sources with fs.
Qed.

(** After [setup_apt] the source list exists. *)
Lemma setup_apt_ensures_sources context repos :
  ensures (pkgmngr context </> "etc/apt/sources.list")
    (setup_apt context repos).
Proof.
  unfold setup_apt, with_umask. cbv zeta.
  do 8 (apply ensures_after; intros _).
  auto using ensures_write_sources with fs.
Qed.

End SetupApt.

(** ** [setup_zypper] *)

Section SetupZypper.
Context `{Collaborators}.
Implicit Types (context : Context) (repos : list RpmRepository).

(** The two files of [setup_zypper], component by component. *)
Lemma zypp_conf_path context :
  pkgmngr context </> "etc/zypp/zypp.conf"
  = pkgmngr context ++ ["etc"; "zypp"; "zypp.conf"].
Proof. reflexivity. Qed.

Lemma repofile_path context :
  pkgmngr context </> "etc/zypp/repos.d/mkosi.repo"
  = pkgmngr context ++ ["etc"; "zypp"; "repos.d"; "mkosi.repo"].
Proof. reflexivity. Qed.

Lemma zypp_conf_parent context :
  Paths.parent (pkgmngr context </> "etc/zypp/zypp.conf")
  = pkgmngr context ++ ["etc"; "zypp"].
Proof.
  rewrite zypp_conf_path. unfold Paths.parent.
  by rewrite removelast_app.
Qed.

Lemma repofile_parent context :
  Paths.parent (pkgmngr context </> "etc/zypp/repos.d/mkosi.repo")
  = pkgmngr context ++ ["etc"; "zypp"; "repos.d"].
Proof.
  rewrite repofile_path. unfold Paths.parent.
  by rewrite removelast_app.
Qed.

Lemma repofile_not_zypp_conf context :
  pkgmngr context </> "etc/zypp/repos.d/mkosi.repo"
  ≠ pkgmngr context </> "etc/zypp/zypp.conf".
Proof.
  rewrite repofile_path, zypp_conf_path. intros Heq%app_inv_head.
  discriminate.
Qed.

Lemma repofile_nonempty context :
  pkgmngr context </> "etc/zypp/repos.d/mkosi.repo" ≠ [].
Proof. rewrite repofile_path. by destruct (pkgmngr context). Qed.

Lemma zypp_conf_nonempty context :
  pkgmngr context </> "etc/zypp/zypp.conf" ≠ [].
Proof. rewrite zypp_conf_path. by destruct (pkgmngr context). Qed.

Lemma holds_write_gpgurl q f entry : q ≠ f → holds q (write_gpgurl f entry).
Proof.
  intros Hne. destruct entry as [i url_]. unfold write_gpgurl.
  apply holds_bind; [|intros _]; by apply holds_fwrite.
Qed.

Lemma holds_write_repo q f repo : q ≠ f → holds q (write_repo f repo).
Proof.
  intros Hne. unfold write_repo.
  apply holds_bind; [by apply holds_fwrite|]. intros _.
  apply holds_for. intros entry. by apply holds_write_gpgurl.
Qed.

Lemma monotone_write_repo f repo : monotone (write_repo f repo).
Proof.
  unfold write_repo. apply monotone_bind; [apply monotone_fwrite|].
  intros _. apply monotone_for. intros [i url_]. unfold write_gpgurl.
  auto with fs.
Qed.

(** The body of the existence check on the repo file. *)
Lemma ensures_write_repofile f repos :
  ensures f
    (mkdir_p (Paths.parent f) ;; open_w f ;; for_ repos (write_repo f)).
Proof.
  apply ensures_after. intros _. apply ensures_then; [apply ensures_open_w|].
  apply monotone_for. intros repo. apply monotone_write_repo.
Qed.

(** A step that leaves an entry alone keeps it in existence. *)
Lemma ensures_then_holds p (m1 m2 : M unit) :
  p ≠ [] → ensures p m1 → holds p m2 → ensures p (m1 ;; m2).
Proof.
  intros Hne Hm1 Hm2 w w' (w1 & [] & Hrun1 & Hrun2)%bind_ok.
  apply Hm1 in Hrun1. unfold Fs.exists_ in *.
  rewrite bool_decide_eq_true, lookup_nonempty in Hrun1 |- * by done.
  destruct Hrun1 as [n Hn]. apply (Hm2 w1) in Hn. rewrite Hrun2 in Hn. eauto.
Qed.

(** A second [setup_zypper] leaves the repo file that is there. *)
Lemma setup_zypper_holds_repofile context repos :
  keeps_path (setup_rpm_fs context)
    (pkgmngr context </> "etc/zypp/repos.d/mkosi.repo") →
  holds (pkgmngr context </> "etc/zypp/repos.d/mkosi.repo")
    (setup_zypper context repos).
Proof.
  intros Hframe. unfold setup_zypper. cbv zeta.
  pose proof (repofile_not_zypp_conf context) as Hne.
  apply holds_bind; [apply holds_mkdir_p|intros _].
  apply holds_bind; [apply holds_mkdir_p|intros _].
  apply holds_bind; [|intros _].
  { apply holds_bind; [apply holds_open_a|intros _].
    by apply holds_fwrite. }
  apply holds_bind; [|intros _].
  { apply holds_unless_exists, repofile_nonempty. }
  by apply holds_call.
Qed.

(** After [setup_zypper] the repo file exists. *)
Lemma setup_zypper_ensures_repofile context repos :
  keeps_path (setup_rpm_fs context)
    (pkgmngr context </> "etc/zypp/repos.d/mkosi.repo") →
  ensures (pkgmngr context </> "etc/zypp/repos.d/mkosi.repo")
    (setup_zypper context repos).
Proof.
  intros Hframe. unfold setup_zypper. cbv zeta.
  do 3 (apply ensures_after; intros _).
  apply ensures_then_holds; [apply repofile_nonempty| |by apply holds_call].
  apply ensures_unless_exists, ensures_write_repofile.
Qed.

End SetupZypper.

(** ** Idempotence *)

Section Idempotence.
Context `{Collaborators}.

(** C7: after a [setup_apt] that returned, a second one with the same
    arguments returns and leaves the whole state as it is, the source
    list and the auxiliary configuration, which both exist, included;
    after a [setup_zypper] that returned, the repo file exists and a
    second one with the same arguments leaves it as it is, whenever
    [setup_rpm] does not touch that file. *)
Theorem setup_twice (context : Context) (repos : list string)
    (rpm_repos : list RpmRepository) (w w1 : World) (z z1 : World) :
  let sources := pkgmngr context </> "etc/apt/sources.list" in
  let config_ := workspace context </> "apt.conf" in
  let repofile := pkgmngr context </> "etc/zypp/repos.d/mkosi.repo" in
  (setup_apt context repos w = (w1, Ok ()) →
   setup_apt context repos w1 = (w1, Ok ())
   ∧ Fs.exists_ sources (nodes w1) = true
   ∧ Fs.exists_ config_ (nodes w1) = true) ∧
  (keeps_path (setup_rpm_fs context) repofile →
   setup_zypper context rpm_repos z = (z1, Ok ()) →
   is_Some (nodes z1 !! repofile)
   ∧ nodes (setup_zypper context rpm_repos z1).1 !! repofile
     = nodes z1 !! repofile).
Proof.
  intros sources config_ repofile. subst sources config_ repofile. split.
  - intros Hrun. split; [|split].
    + eapply settles_setup_apt; [exact Hrun|apply grows_refl].
    + by eapply setup_apt_ensures_sources.
    + by eapply setup_apt_ensures_config.
  - intros Hframe Hrun.
    apply setup_zypper_ensures_repofile in Hrun; [|done].
    unfold Fs.exists_ in Hrun.
    rewrite bool_decide_eq_true, lookup_nonempty in Hrun
      by apply repofile_nonempty.
    split; [exact Hrun|]. destruct Hrun as [n Hn].
    rewrite Hn. by apply setup_zypper_holds_repofile.
Qed.

End Idempotence.

(** ** Texts *)

Section Texts.
Implicit Types (s t u : string).

Lemma append_cons a s t : String a s +:+ t = String a (s +:+ t).
Proof. reflexivity. Qed.

Lemma append_nil_r s : s +:+ "" = s.
Proof. induction s as [|a s IH]; [done|]. by rewrite append_cons, IH. Qed.

Lemma append_assoc s t u : (s +:+ t) +:+ u = s +:+ t +:+ u.
Proof. induction s as [|a s IH]; [done|]. by rewrite !append_cons, IH. Qed.

Lemma cat_cons s (ss : list string) : cat (s :: ss) = s +:+ cat ss.
Proof. reflexivity. Qed.

Lemma cat_app (ss ts : list string) : cat (ss ++ ts) = cat ss +:+ cat ts.
Proof.
  induction ss as [|s ss IH]; [done|].
  change (cat ((s :: ss) ++ ts)) with (s +:+ cat (ss ++ ts)).
  by rewrite IH, cat_cons, append_assoc.
Qed.

End Texts.

(** ** The tuning block of [zypp.conf] *)

Section ZyppConf.
Context `{Collaborators}.
Implicit Types (context : Context) (repos : list RpmRepository) (w : World).

Lemma holds_run {A} q (m : M A) w w' r n :
  holds q m → m w = (w', r) → nodes w !! q = Some n → nodes w' !! q = Some n.
Proof. intros Hm Hrun Hq. apply (Hm w) in Hq. by rewrite Hrun in Hq. Qed.

Lemma mkdir_p_lookup p q w w' r :
  mkdir_p p w = (w', r) →
  nodes w' !! q = nodes w !! q
  ∨ (nodes w !! q = None ∧ nodes w' !! q = Some Dir).
Proof.
  unfold mkdir_p. rewrite fs_step_run. intros [= <- _]. simpl.
  apply mkdir_from_lookup.
Qed.

Lemma fwrite_run f s w c :
  nodes w !! f = Some (File c) →
  fwrite f s w
  = (mkWorld (<[f := File (c +:+ s)]> (nodes w)) (calls w), Ok ()).
Proof.
  intros Hf. unfold fwrite. rewrite fs_step_run.
  by rewrite (write_file f s (nodes w) c Hf).
Qed.

(** Opening for append and writing: the text goes after what the file
    held, or into a new file. *)
Lemma append_to_file f s w w' :
  (open_a f ;; fwrite f s) w = (w', Ok ()) →
  ∃ c, (nodes w !! f = Some (File c) ∨ (nodes w !! f = None ∧ c = ""))
       ∧ nodes w' !! f = Some (File (c +:+ s)).
Proof.
  intros (w1 & [] & [Hopen _]%fs_step_ok & Hwrite)%bind_ok.
  apply open_a_ok in Hopen as [Hne [(c & Hc & Heq)|[Hnone Heq]]].
  - exists c. split; [by left|].
    rewrite (fwrite_run f s w1 c) in Hwrite by (by rewrite Heq).
    injection Hwrite as <-. simpl. apply lookup_insert_eq.
  - exists "". split; [by right|].
    rewrite (fwrite_run f s w1 "") in Hwrite
      by (rewrite Heq; apply lookup_insert_eq).
    injection Hwrite as <-. simpl. apply lookup_insert_eq.
Qed.

(** What [setup_zypper] does after the append leaves [zypp.conf]. *)
Lemma holds_zypp_conf_rest context repos :
  keeps_path (setup_rpm_fs context) (pkgmngr context </> "etc/zypp/zypp.conf") →
  holds (pkgmngr context </> "etc/zypp/zypp.conf")
    (unless_exists (pkgmngr context </> "etc/zypp/repos.d/mkosi.repo") (
       mkdir_p (Paths.parent
                  (pkgmngr context </> "etc/zypp/repos.d/mkosi.repo")) ;;
       open_w (pkgmngr context </> "etc/zypp/repos.d/mkosi.repo") ;;
       for_ repos
         (write_repo (pkgmngr context </> "etc/zypp/repos.d/mkosi.repo"))) ;;
     setup_rpm context).
Proof.
  intros Hframe.
  assert (pkgmngr context </> "etc/zypp/zypp.conf"
          ≠ pkgmngr context </> "etc/zypp/repos.d/mkosi.repo") as Hne.
  { intros Heq. by apply (repofile_not_zypp_conf context). }
  apply holds_bind; [|intros _; by apply holds_call].
  apply holds_bind; [apply holds_path_exists|]. intros e. apply holds_when.
  apply holds_bind; [apply holds_mkdir_p|intros _].
  apply holds_bind; [by apply holds_open_w|intros _].
  apply holds_for. intros repo. by apply holds_write_repo.
Qed.

Lemma zypp_conf_text_lines context :
  zypp_conf_text context = "
[main]
rpm.install.excludedocs = "
    +:+ (if with_docs (config context) then "no" else "yes") +:+ "
repo.refresh.delay = 2880
".
Proof. unfold zypp_conf_text. by destruct (with_docs (config context)). Qed.

(** C8: when [setup_zypper] returns, [zypp.conf] holds what it held
    before, followed by the tuning block, or the block alone when there
    was no such file; the block is an empty line, [[main]], the
    [excludedocs] line with [yes] exactly when documentation is left
    out, and a refresh delay of 48 * 60 = 2880 minutes.  [setup_rpm] is
    taken not to touch the file. *)
Theorem setup_zypper_appends (context : Context) (repos : list RpmRepository)
    (w w' : World) :
  let config_ := pkgmngr context </> "etc/zypp/zypp.conf" in
  let prior :=
    match nodes w !! config_ with Some (File c) => c | _ => "" end in
  keeps_path (setup_rpm_fs context) config_ →
  setup_zypper context repos w = (w', Ok ()) →
  nodes w' !! config_ = Some (File (prior +:+ zypp_conf_text context))
  ∧ zypp_conf_text context = "
[main]
rpm.install.excludedocs = "
      +:+ yes_no (negb (with_docs (config context))) +:+ "
repo.refresh.delay = " +:+ Py.str_nat (48 * 60) +:+ "
"
  ∧ Py.str_nat (48 * 60) = "2880".
Proof.
  intros config_ prior Hframe Hrun. subst config_ prior.
  split; [|split; [|reflexivity]].
  2: { rewrite zypp_conf_text_lines.
       by destruct (with_docs (config context)). }
  unfold setup_zypper in Hrun. cbv zeta in Hrun.
  apply bind_ok in Hrun as (w1 & [] & Hmk1 & Hrun).
  apply bind_ok in Hrun as (w2 & [] & Hmk2 & Hrun).
  apply bind_ok in Hrun as (w3 & [] & Happend & Hrun).
  apply append_to_file in Happend as (c & Hc & Hw3).
  eapply (holds_run _ _ _ _ _ _ (holds_zypp_conf_rest context repos Hframe))
    in Hw3; [|exact Hrun].
  rewrite Hw3. do 3 f_equal.
  pose proof (mkdir_p_lookup _ (pkgmngr context </> "etc/zypp/zypp.conf")
                _ _ _ Hmk1) as Hl1.
  pose proof (mkdir_p_lookup _ (pkgmngr context </> "etc/zypp/zypp.conf")
                _ _ _ Hmk2) as Hl2.
  destruct Hc as [Hc|[Hc ->]].
  - destruct Hl2 as [Hl2|[_ Hl2]]; [|congruence].
    destruct Hl1 as [Hl1|[_ Hl1]]; [|congruence].
    by rewrite <- Hl1, <- Hl2, Hc.
  - destruct Hl2 as [Hl2|[_ Hl2]]; [|congruence].
    destruct Hl1 as [Hl1|[-> _]]; [|done].
    by rewrite <- Hl1, <- Hl2, Hc.
Qed.

End ZyppConf.

(** ** The repo file *)

Section RepoFile.
Context `{Collaborators}.
Implicit Types (context : Context) (repos : list RpmRepository) (w : World).
Implicit Types (f : Path) (s t : string).

Lemma appends_ret f : appends f (mret ()) "".
Proof.
  intros w c Hf. rewrite append_nil_r, insert_id by done. by destruct w.
Qed.

Lemma appends_fwrite f s : appends f (fwrite f s) s.
Proof. intros w c Hf. by apply fwrite_run. Qed.

Lemma appends_then f (m1 m2 : M unit) t1 t2 :
  appends f m1 t1 → appends f m2 t2 → appends f (m1 ;; m2) (t1 +:+ t2).
Proof.
  intros Hm1 Hm2 w c Hf. rewrite bind_run, (Hm1 w c Hf).
  rewrite (Hm2 _ (c +:+ t1)) by apply lookup_insert_eq. simpl.
  by rewrite insert_insert_eq, append_assoc.
Qed.

Lemma appends_for {A} f (xs : list A) (body : A → M unit) (text : A → string) :
  (∀ x, appends f (body x) (text x)) →
  appends f (for_ xs body) (cat (text <$> xs)).
Proof.
  intros Hbody. induction xs as [|x xs IH]; [apply appends_ret|].
  apply appends_then; auto.
Qed.

Lemma appends_write_gpgurl f entry :
  appends f (write_gpgurl f entry) (gpgkey_line entry).
Proof.
  destruct entry as [i url_]. unfold write_gpgurl, gpgkey_line.
  apply appends_then; apply appends_fwrite.
Qed.

Lemma appends_write_repo f repo :
  appends f (write_repo f repo) (repo_text repo).
Proof.
  unfold write_repo, repo_text, gpgkey_text.
  apply appends_then; [apply appends_fwrite|].
  apply appends_for, appends_write_gpgurl.
Qed.

Lemma open_a_other p q fs : q ≠ p → (Fs.open_a p fs).1 !! q = fs !! q.
Proof.
  intros Hne. unfold Fs.open_a.
  destruct (Fs.lookup p fs) as [[|content]|]; simpl; auto.
  by apply create_other.
Qed.

Lemma longer_not_prefix (base l1 l2 : Path) :
  length l2 < length l1 → ¬ (base ++ l1) `prefix_of` (base ++ l2).
Proof.
  intros Hlen Hpre%prefix_length. rewrite !length_app in Hpre. lia.
Qed.

(** A fresh repo file holds one block per repository, in order. *)
Lemma setup_zypper_repofile context repos w w' :
  let repofile := pkgmngr context </> "etc/zypp/repos.d/mkosi.repo" in
  nodes w !! repofile = None →
  ¬ repofile `prefix_of` (cache_dir context </> "cache/zypp") →
  keeps_path (setup_rpm_fs context) repofile →
  setup_zypper context repos w = (w', Ok ()) →
  nodes w' !! repofile = Some (File (cat (repo_text <$> repos))).
Proof.
  intros repofile Hfresh Hcache Hframe Hrun.
  unfold setup_zypper in Hrun. cbv zeta in Hrun. fold repofile in Hrun.
  assert (repofile ≠ []) as Hnonempty by apply repofile_nonempty.
  apply bind_ok in Hrun as (w1 & [] & [Hmk1 _]%fs_step_ok & Hrun).
  apply bind_ok in Hrun as (w2 & [] & [Hmk2 _]%fs_step_ok & Hrun).
  apply bind_ok in Hrun as (w3 & [] & Happend & Hrun).
  apply bind_ok in Happend as (w2a & [] & [Hopen _]%fs_step_ok & Hwrite).
  apply fs_step_ok in Hwrite as [Hwrite _].
  apply bind_ok in Hrun as (w4 & [] & Hguard & Hrpm).
  assert (nodes w3 !! repofile = None) as Hw3.
  { replace (nodes w3) with
      (Fs.write (pkgmngr context </> "etc/zypp/zypp.conf")
         (zypp_conf_text context) (nodes w2a)).1 by (by rewrite Hwrite).
    rewrite write_other by apply repofile_not_zypp_conf.
    replace (nodes w2a) with
      (Fs.open_a (pkgmngr context </> "etc/zypp/zypp.conf") (nodes w2)).1
      by (by rewrite Hopen).
    rewrite open_a_other by apply repofile_not_zypp_conf.
    replace (nodes w2) with
      (Fs.mkdir_p (cache_dir context </> "cache/zypp") (nodes w1)).1
      by (by rewrite Hmk2).
    unfold Fs.mkdir_p. rewrite mkdir_from_outside by done.
    replace (nodes w1) with
      (Fs.mkdir_p (Paths.parent (pkgmngr context </> "etc/zypp/zypp.conf"))
         (nodes w)).1 by (by rewrite Hmk1).
    unfold Fs.mkdir_p. rewrite mkdir_from_outside; [done|].
    rewrite zypp_conf_parent. unfold repofile. rewrite repofile_path.
    apply (longer_not_prefix (pkgmngr context)). simpl. lia. }
  unfold unless_exists in Hguard. rewrite bind_run, path_exists_run in Hguard.
  assert (Fs.exists_ repofile (nodes w3) = false) as Hexists.
  { apply bool_decide_eq_false. rewrite lookup_nonempty, Hw3 by done.
    by intros [? ?]. }
  rewrite Hexists in Hguard. simpl in Hguard.
  apply bind_ok in Hguard as (w3a & [] & [Hmk3 _]%fs_step_ok & Hguard).
  apply bind_ok in Hguard as (w3b & [] & [Hopenw _]%fs_step_ok & Hloop).
  apply open_w_ok in Hopenw as [Hw3b _].
  rewrite (appends_for repofile repos _ repo_text
             (appends_write_repo repofile) w3b "") in Hloop
    by (rewrite Hw3b; apply lookup_insert_eq).
  injection Hloop as <-.
  unfold setup_rpm, call in Hrpm. specialize (Hframe (nodes
    {| nodes := <[repofile:=File ("" +:+ cat (repo_text <$> repos))]> (nodes w3b);
       calls := calls w3b |})).
  destruct (setup_rpm_fs context _) as [fs r]. injection Hrpm as <- _.
  simpl in *. rewrite Hframe. apply lookup_insert_eq.
Qed.

End RepoFile.

(** ** The [gpgkey] lines *)

Section GpgKeys.
Implicit Types (s t l : string) (ls urls : list string).

Lemma gpgkey_line_later k url_ :
  gpgkey_line (S k, url_)
  = (Py.spaces (String.length "gpgkey=") +:+ url_) +:+ Py.NL.
Proof. unfold gpgkey_line. simpl. by rewrite append_assoc. Qed.

Lemma gpgkey_lines_later k urls :
  gpgkey_line <$> zip (seq (S k) (length urls)) urls
  = (λ v, (Py.spaces (String.length "gpgkey=") +:+ v) +:+ Py.NL) <$> urls.
Proof.
  revert k. induction urls as [|v urls IH]; intros k; [done|].
  simpl. by rewrite gpgkey_line_later, IH.
Qed.

(** The first URL after [gpgkey=], the others after as many spaces. *)
Lemma gpgkey_text_cons u rest :
  gpgkey_text (u :: rest)
  = cat ((λ l, l +:+ Py.NL)
         <$> ("gpgkey=" +:+ u)
             :: ((λ v, Py.spaces (String.length "gpgkey=") +:+ v) <$> rest)).
Proof.
  unfold gpgkey_text, enumerate.
  change (zip (seq 0 (length (u :: rest))) (u :: rest))
    with ((0, u) :: zip (seq 1 (length rest)) rest).
  rewrite fmap_cons, gpgkey_lines_later, fmap_cons, <- list_fmap_compose.
  f_equal.
Qed.

Lemma one_line_append s t :
  one_line s = true → one_line t = true → one_line (s +:+ t) = true.
Proof.
  intros Hs Ht. induction s as [|c s IH]; [done|].
  rewrite append_cons. simpl in *.
  apply andb_true_iff in Hs as [Hc Hs]. rewrite Hc. auto.
Qed.

Lemma split_lines_line l t :
  one_line l = true →
  Py.split_lines ((l +:+ Py.NL) +:+ t) = l :: Py.split_lines t.
Proof.
  intros Hl. induction l as [|c l IH]; [done|].
  simpl in Hl. apply andb_true_iff in Hl as [Hc Hl].
  apply negb_true_iff, bool_decide_eq_false in Hc.
  rewrite !append_cons. unfold Py.split_lines in *. simpl.
  rewrite decide_False by done. by rewrite IH.
Qed.

Lemma split_lines_cat ls :
  Forall (λ l, one_line l = true) ls →
  Py.split_lines (cat ((λ l, l +:+ Py.NL) <$> ls)) = ls ++ [""].
Proof.
  induction 1 as [|l ls Hl Hls IH]; [done|].
  rewrite fmap_cons, cat_cons, split_lines_line by done. by rewrite IH.
Qed.

(** A text of terminated lines has those lines. *)
Lemma lines_cat ls :
  Forall (λ l, one_line l = true) ls →
  Py.lines (cat ((λ l, l +:+ Py.NL) <$> ls)) = ls.
Proof.
  intros Hls. unfold Py.lines. rewrite split_lines_cat by done.
  rewrite reverse_app. simpl. apply reverse_involutive.
Qed.

End GpgKeys.

Section RepoBlocks.
Context `{Collaborators}.

(** C3: in a fresh repo file, the block of a repository with the key
    URLs [u :: rest] is its header followed by the [gpgkey] text; that
    text is one terminated line per URL, [gpgkey=] and the first URL,
    then each further URL after [len("gpgkey=")] spaces; when no URL
    holds a line feed these are its lines, as many as there are URLs.
    [setup_rpm] is taken not to touch the file, and the cache directory
    not to lie on the path of the file. *)
Theorem gpgkey_continuation (context : Context)
    (before after : list RpmRepository) (repo : RpmRepository)
    (u : string) (rest : list string) (w w' : World) :
  let repofile := pkgmngr context </> "etc/zypp/repos.d/mkosi.repo" in
  Rpm.gpgurls repo = u :: rest →
  nodes w !! repofile = None →
  ¬ repofile `prefix_of` (cache_dir context </> "cache/zypp") →
  keeps_path (setup_rpm_fs context) repofile →
  setup_zypper context (before ++ repo :: after) w = (w', Ok ()) →
  ∃ block,
    nodes w' !! repofile
    = Some (File (cat (repo_text <$> before)
                  +:+ (repo_header repo +:+ block)
                  +:+ cat (repo_text <$> after)))
    ∧ block
      = cat ((λ l, l +:+ Py.NL)
             <$> ("gpgkey=" +:+ u)
                 :: ((λ v, Py.spaces (String.length "gpgkey=") +:+ v)
                     <$> rest))
    ∧ (Forall (λ v, one_line v = true) (u :: rest) →
       Py.lines block
       = ("gpgkey=" +:+ u) :: ((λ v, "       " +:+ v) <$> rest)
       ∧ length (Py.lines block) = length (u :: rest)).
Proof.
  intros repofile Hurls Hfresh Hcache Hframe Hrun. subst repofile.
  exists (gpgkey_text (u :: rest)). split; [|split].
  - rewrite (setup_zypper_repofile context _ w w' Hfresh Hcache Hframe Hrun).
    rewrite fmap_app, cat_app, fmap_cons, cat_cons.
    unfold repo_text at 2. by rewrite Hurls.
  - apply gpgkey_text_cons.
  - intros Hlines. rewrite gpgkey_text_cons.
    assert (Forall (λ l, one_line l = true)
              (("gpgkey=" +:+ u)
               :: ((λ v, Py.spaces (String.length "gpgkey=") +:+ v) <$> rest)))
      as Hone.
    { apply Forall_cons in Hlines as [Hu Hrest]. constructor.
      - by apply one_line_append.
      - apply Forall_fmap. eapply Forall_impl; [exact Hrest|].
        intros v Hv. by apply one_line_append. }
    rewrite lines_cat by done. split; [done|].
    simpl. by rewrite length_fmap.
Qed.

(** C9: for the one repository [base] with its two key URLs, a fresh
    repo file holds the stanza, line by line, with the second URL on a
    line of its own after seven spaces.  [setup_rpm] is taken not to
    touch the file, and the cache directory not to lie on the path of
    the file. *)
Theorem setup_zypper_base_repo (context : Context) (w w' : World) :
  let repofile := pkgmngr context </> "etc/zypp/repos.d/mkosi.repo" in
  nodes w !! repofile = None →
  ¬ repofile `prefix_of` (cache_dir context </> "cache/zypp") →
  keeps_path (setup_rpm_fs context) repofile →
  setup_zypper context [Reference.base_repo] w = (w', Ok ()) →
  nodes w' !! repofile = Some (File "[base]
name=base
baseurl=http://example/repo
gpgcheck=1
enabled=1
autorefresh=1
keeppackages=1
gpgkey=http://example/key1
       http://example/key2
").
Proof.
  intros repofile Hfresh Hcache Hframe Hrun. subst repofile.
  by rewrite (setup_zypper_repofile context _ w w' Hfresh Hcache Hframe Hrun).
Qed.

End RepoBlocks.

(** ** The local repository of apt *)

(** A run that ended with [Ok a], by its outcome alone. *)
Lemma returned {A} (x : World * result A) (a : A) :
  x.2 = Ok a → x = (x.1, Ok a).
Proof. destruct x as [w r]. simpl. by intros ->. Qed.

(** C1 fails on the code: the text [createrepo_apt] writes is the
    literal of the source with its indentation, since it is not passed
    through [textwrap.dedent].  For every context the text begins with
    eight spaces, and for the release [bookworm] the file has seven
    lines, each of the six fields after eight spaces and then a line of
    eight spaces. *)
Theorem createrepo_apt_writes_indented :
  (∀ context : Context,
     String.prefix "        Enabled: yes" (mkosi_packages_sources context)
     = true) ∧
  let C := Reference.collaborators 0 in
  ∃ w' text,
    createrepo_apt (Reference.a_context true true) Reference.workspace_world
    = (w', Ok ()) ∧
    nodes w' !! ["work"; "pkgmngr"; "etc"; "apt"; "sources.list.d";
                 "mkosi-packages.sources"]
    = Some (File text) ∧
    Py.lines text
    = ["        Enabled: yes";
       "        Types: deb";
       "        URIs: file:///work/packages";
       "        Suites: bookworm";
       "        Components: main";
       "        Trusted: yes";
       "        "].
Proof.
  split; [reflexivity|]. intros C.
  exists (createrepo_apt (Reference.a_context true true)
            Reference.workspace_world).1.
  exists (mkosi_packages_sources (Reference.a_context true true)).
  split; [apply returned; vm_compute; reflexivity|].
  split; vm_compute; reflexivity.
Qed.

(** ** The theorems at a concrete build *)

Lemma setup_twice_witness :
  let C := Reference.collaborators 0 in
  let context := Reference.a_context true true in
  let repos := ["deb http://example/ stable main"] in
  let w1 := (setup_apt context repos Reference.empty_world).1 in
  let z1 :=
    (setup_zypper context [Reference.base_repo] Reference.empty_world).1 in
  setup_apt context repos w1 = (w1, Ok ())
  ∧ nodes (setup_zypper context [Reference.base_repo] z1).1
      !! (pkgmngr context </> "etc/zypp/repos.d/mkosi.repo")
    = nodes z1 !! (pkgmngr context </> "etc/zypp/repos.d/mkosi.repo").
Proof.
  intros C context repos w1 z1.
  destruct (setup_twice context repos [Reference.base_repo]
              Reference.empty_world w1 Reference.empty_world z1)
    as [Hapt Hzypper].
  split.
  - apply Hapt. apply returned. vm_compute. reflexivity.
  - apply Hzypper.
    + intros fs. reflexivity.
    + apply returned. vm_compute. reflexivity.
Defined.

Lemma setup_zypper_appends_witness :
  let C := Reference.collaborators 0 in
  let context := Reference.a_context false true in
  let config_ := pkgmngr context </> "etc/zypp/zypp.conf" in
  let w :=
    mkWorld (<[config_ := File "solver.onlyRequires = true
"]> (<[pkgmngr context ++ ["etc"; "zypp"] := Dir]>
       (<[pkgmngr context ++ ["etc"] := Dir]>
          (<[pkgmngr context := Dir]> (<[["work"] := Dir]> ∅))))) [] in
  nodes (setup_zypper context [Reference.base_repo] w).1 !! config_
  = Some (File "solver.onlyRequires = true

[main]
rpm.install.excludedocs = yes
repo.refresh.delay = 2880
").
Proof.
  intros C context config_ w.
  refine (proj1 (setup_zypper_appends context [Reference.base_repo] w
                   (setup_zypper context [Reference.base_repo] w).1 _ _)).
  - intros fs. reflexivity.
  - apply returned. vm_compute. reflexivity.
Defined.

Lemma setup_zypper_base_repo_witness :
  let C := Reference.collaborators 0 in
  let context := Reference.a_context true true in
  ∃ text,
    nodes (setup_zypper context [Reference.base_repo] Reference.empty_world).1
      !! (pkgmngr context </> "etc/zypp/repos.d/mkosi.repo")
    = Some (File text).
Proof.
  intros C context. eexists.
  refine (setup_zypper_base_repo context Reference.empty_world
            (setup_zypper context [Reference.base_repo]
               Reference.empty_world).1 _ _ _ _).
  - reflexivity.
  - apply (bool_decide_unpack _). vm_compute. exact I.
  - intros fs. reflexivity.
  - apply returned. vm_compute. reflexivity.
Defined.

Lemma gpgkey_continuation_witness :
  let C := Reference.collaborators 0 in
  let context := Reference.a_context true true in
  ∃ block,
    Py.lines block
    = ["gpgkey=http://example/key1"; "       http://example/key2"].
Proof.
  intros C context.
  destruct (gpgkey_continuation context [] [] Reference.base_repo
              "http://example/key1" ["http://example/key2"]
              Reference.empty_world
              (setup_zypper context [Reference.base_repo]
                 Reference.empty_world).1)
    as (block & _ & _ & Hlines).
  - reflexivity.
  - reflexivity.
  - apply (bool_decide_unpack _). vm_compute. exact I.
  - intros fs. reflexivity.
  - apply returned. vm_compute. reflexivity.
  - exists block. apply Hlines. repeat constructor.
Defined.

(** * Further properties *)

(** ** The layout of the apt vector *)

Section VectorLayout.
Context `{Collaborators}.

(** X1: the vector of [apt_cmd] is [env], four assignments, the command,
    and then nothing but [-o] options, each with its value; there are 23
    of them, three more without the key check and five more without
    documentation. *)
Theorem apt_cmd_layout (context : Context) (command : string) (w : World) :
  ∃ v, apt_cmd context command w = (w, Ok v) ∧
    take 6 v
    = ["env";
       "APT_CONFIG=" +:+ Paths.str (workspace context </> "apt.conf");
       "DEBIAN_FRONTEND=noninteractive";
       "DEBCONF_INTERACTIVE_SEEN=true";
       "INITRD=No";
       command] ∧
    paired (drop 6 v) = true ∧
    length (drop 6 v)
    = 2 * (23 + (if repository_key_check (config context) then 0 else 3)
              + (if with_docs (config context) then 0 else 5)).
Proof.
  run_vector.
  destruct (with_docs (config context)), (repository_key_check (config context));
    repeat split; reflexivity.
Qed.

Lemma prefix_empty (s : string) : String.prefix "" s = true.
Proof. by destruct s. Qed.

(** X2: the options of the vector that depend on the context: both
    architecture options carry the name the distribution gives the
    architecture, the recommends option is [true] or [false] as
    configured, and the dpkg option carries what [find_binary] found,
    the word [None] when it found nothing; the vector is returned all
    the same. *)
Theorem apt_cmd_context_options (context : Context) (command : string)
    (w : World) :
  ∃ v, apt_cmd context command w = (w, Ok v) ∧
    let debarch :=
      distribution_architecture (distribution (config context))
        (architecture (config context)) in
    options_for "APT::Architecture" v
    = ["APT::Architecture=" +:+ debarch; "APT::Architectures=" +:+ debarch] ∧
    options_for "APT::Install-Recommends=" v
    = [if with_recommends (config context)
       then "APT::Install-Recommends=true"
       else "APT::Install-Recommends=false"] ∧
    options_for "Dir::Bin::DPkg=" v
    = [match find_binary "dpkg" (tools (config context)) (nodes w) with
       | Some p => "Dir::Bin::DPkg=" +:+ Paths.str p
       | None => "Dir::Bin::DPkg=None"
       end].
Proof.
  run_vector. unfold options_for.
  destruct (find_binary "dpkg" (tools (config context)) (nodes w));
    destruct (with_recommends (config context)),
      (with_docs (config context)), (repository_key_check (config context));
    known_prefixes; destruct (String.eqb command "-o"); simpl;
    rewrite ?prefix_empty; repeat split; reflexivity.
Qed.

End VectorLayout.

(** ** Invocations that fail early, and what they always do *)

Section InvocationOutcomes.
Context `{Collaborators}.

(** X3: when the source mounts cannot be set up, neither backend runs
    anything: the exception is raised again, the only call made is the
    attempt to enter the mounts, and the file system is what that
    attempt left. *)
Theorem invoke_without_mounts (context : Context)
    (command operation verb : string) (pk options mounts : list string)
    (apivfs : bool) (w : World) (fs1 : FS) (e : exn) :
  source_mounts_enter (config context) (nodes w) = (fs1, Raise e) →
  invoke_apt context command operation pk apivfs mounts w
  = (mkWorld fs1 (calls w ++ [EvSourceMountsEnter]), Raise e)
  ∧ invoke_zypper context verb pk options apivfs w
    = (mkWorld fs1 (calls w ++ [EvSourceMountsEnter]), Raise e).
Proof.
  intros Henter. split.
  - unfold invoke_apt. unfold_monad. by rewrite Henter.
  - rewrite invoke_zypper_steps. by rewrite Henter.
Qed.

(** X4: once the source mounts are in place, [invoke_apt] runs one
    process and leaves the mounts again, whether the process failed or
    not; the file system is what leaving the mounts left; a failure of
    the process is raised again, unless leaving the mounts fails
    itself. *)
Theorem invoke_apt_outcome (context : Context) (command operation : string)
    (pk mounts : list string) (apivfs : bool) (w : World)
    (fs1 : FS) (sources : list string) :
  source_mounts_enter (config context) (nodes w) = (fs1, Ok sources) →
  ∃ v fs2 r fs3 r3,
    apt_cmd context command (mkWorld fs1 (calls w ++ [EvSourceMountsEnter]))
    = (mkWorld fs1 (calls w ++ [EvSourceMountsEnter]), Ok v) ∧
    run_process (v ++ [operation] ++ sort_packages pk)
      (invoke_sandbox context sources mounts apivfs)
      (environment (config context)) fs1
    = (fs2, r) ∧
    source_mounts_exit (config context) fs2 = (fs3, r3) ∧
    let w' := (invoke_apt context command operation pk apivfs mounts w).1 in
    nodes w' = fs3 ∧
    new_calls w w'
    = [EvSourceMountsEnter;
       EvRun (v ++ [operation] ++ sort_packages pk)
         (invoke_sandbox context sources mounts apivfs)
         (environment (config context));
       EvSourceMountsExit] ∧
    (invoke_apt context command operation pk apivfs mounts w).2
    = match r3, r with
      | Raise e3, _ => Raise e3
      | Ok _, Raise e => Raise e
      | Ok _, Ok _ => Ok ()
      end.
Proof.
  intros Henter.
  destruct (invoke_apt_steps context command operation pk apivfs mounts w
              fs1 sources Henter) as (v & Hv & Hsteps).
  simpl in Hsteps. unfold invoke_apt_cmdline in Hsteps.
  destruct (run_process (v ++ [operation] ++ sort_packages pk)
              (invoke_sandbox context sources mounts apivfs)
              (environment (config context)) fs1) as [fs2 r] eqn:Hrun.
  destruct (source_mounts_exit (config context) fs2) as [fs3 r3] eqn:Hexit.
  exists v, fs2, r, fs3, r3. split; [exact Hv|]. split; [exact Hrun|].
  split; [exact Hexit|]. rewrite Hsteps.
  destruct r3 as [[]|e3]; simpl; rewrite new_calls_app; by destruct r.
Qed.

End InvocationOutcomes.

(** ** The local repositories *)

Section LocalRepositories.
Context `{Collaborators}.
Implicit Types (context : Context) (w : World).

Lemma write_text_ok p s w w' :
  write_text p s w = (w', Ok ()) → nodes w' !! p = Some (File s).
Proof.
  intros (w1 & [] & [Hopen _]%fs_step_ok & Hwrite)%bind_ok.
  apply open_w_ok in Hopen as [Hw1 _].
  rewrite (fwrite_run p s w1 "") in Hwrite
    by (rewrite Hw1; apply lookup_insert_eq).
  injection Hwrite as <-. simpl. apply lookup_insert_eq.
Qed.

Lemma holds_write_text q p s : q ≠ p → holds q (write_text p s).
Proof.
  intros Hne. apply holds_bind; [by apply holds_open_w|].
  intros _. by apply holds_fwrite.
Qed.

(** X5: when [createrepo_zypper] returns, the repository definition
    holds the seven lines of the stanza and nothing else, whatever the
    file held before. *)
Theorem createrepo_zypper_definition context w w' :
  createrepo_zypper context w = (w', Ok ()) →
  ∃ text,
    nodes w' !! (pkgmngr context </> "etc/zypp/repos.d/mkosi-packages.repo")
    = Some (File text) ∧
    Py.lines text
    = ["[mkosi-packages]";
       "name=mkosi-packages";
       "gpgcheck=0";
       "enabled=1";
       "baseurl=file:///work/packages";
       "autorefresh=0";
       "priority=50"].
Proof.
  unfold createrepo_zypper.
  intros (w1 & out & _ & Hrest)%bind_ok.
  apply bind_ok in Hrest as (w2 & [] & _ & Hwrite).
  apply write_text_ok in Hwrite. exists mkosi_packages_repo.
  split; [exact Hwrite|]. vm_compute. reflexivity.
Qed.

(** X6: when the indexing tool fails, [createrepo_zypper] raises its
    exception and does nothing more: the file system is what the tool
    left, and the run is the only call. *)
Theorem createrepo_zypper_failure context w (fs1 : FS) (e : exn) :
  let cmdline := ["createrepo_c"; Paths.str (packages context)] in
  let sandbox_ :=
    sandbox context false
      ["--bind"; Paths.str (packages context); Paths.str (packages context)] in
  run_process cmdline sandbox_ ∅ (nodes w) = (fs1, Raise e) →
  createrepo_zypper context w
  = (mkWorld fs1 (calls w ++ [EvRun cmdline sandbox_ ∅]), Raise e).
Proof.
  intros cmdline sandbox_ Hrun. unfold createrepo_zypper. unfold_monad.
  fold cmdline sandbox_. by rewrite Hrun.
Qed.

Lemma packages_index_not_definition context :
  pkgmngr context </> "etc/apt/sources.list.d/mkosi-packages.sources"
  ≠ packages context </> "Packages".
Proof.
  change (pkgmngr context
            ++ ["etc"; "apt"; "sources.list.d"; "mkosi-packages.sources"]
          ≠ packages context ++ ["Packages"]).
  intros Heq. apply (f_equal last) in Heq.
  rewrite !last_app in Heq. discriminate.
Qed.

(** X7: when [createrepo_apt] returns, the index [Packages] holds what
    the indexing tool wrote to its standard output, provided the tool
    left that file alone, and the repository definition holds the text
    of the literal, with the release in its [Suites] line. *)
Theorem createrepo_apt_files context w w' :
  let index := packages context </> "Packages" in
  let cmdline := ["dpkg-scanpackages"; Paths.str (packages context)] in
  let sandbox_ :=
    sandbox context false
      ["--ro-bind"; Paths.str (packages context);
       Paths.str (packages context)] in
  keeps_path (run_process cmdline sandbox_ ∅) index →
  createrepo_apt context w = (w', Ok ()) →
  ∃ fs0 fs1 out,
    Fs.open_w index (nodes w) = (fs0, Ok ()) ∧
    run_process cmdline sandbox_ ∅ fs0 = (fs1, Ok out) ∧
    nodes w' !! index = Some (File out) ∧
    nodes w'
      !! (pkgmngr context </> "etc/apt/sources.list.d/mkosi-packages.sources")
    = Some (File (mkosi_packages_sources context)).
Proof.
  intros index cmdline sandbox_ Hkeeps. unfold createrepo_apt. cbv zeta.
  fold index cmdline sandbox_.
  intros (w0 & [] & [Hopen Hcalls]%fs_step_ok & Hrest)%bind_ok.
  apply bind_ok in Hrest as (w1 & out & Hrun & Hrest).
  apply bind_ok in Hrest as (w2 & [] & Hwrite & Hrest).
  apply bind_ok in Hrest as (w3 & [] & Hmkdir & Hdef).
  unfold run, call in Hrun.
  destruct (run_process cmdline sandbox_ ∅ (nodes w0)) as [fs1 r] eqn:Hproc.
  injection Hrun as <- ->.
  exists (nodes w0), fs1, out. split; [exact Hopen|]. split; [exact Hproc|].
  assert (fs1 !! index = Some (File "")) as Hindex.
  { specialize (Hkeeps (nodes w0)). rewrite Hproc in Hkeeps. simpl in Hkeeps.
    rewrite Hkeeps. apply open_w_ok in Hopen as [-> _].
    apply lookup_insert_eq. }
  rewrite (fwrite_run index out (mkWorld fs1 _) "" Hindex) in Hwrite.
  injection Hwrite as <-. split.
  - eapply holds_run; [|exact Hdef|].
    { apply holds_write_text. intros Heq.
      by apply (packages_index_not_definition context). }
    eapply holds_run; [apply holds_mkdir_p|exact Hmkdir|].
    simpl. apply lookup_insert_eq.
  - by apply write_text_ok in Hdef.
Qed.

(** X8: when the indexing tool fails, [createrepo_apt] raises its
    exception after it has emptied the index: the file system is what
    the tool left, no repository definition is written, and the run is
    the only call. *)
Theorem createrepo_apt_failure context w (fs0 fs1 : FS) (e : exn) :
  let index := packages context </> "Packages" in
  let cmdline := ["dpkg-scanpackages"; Paths.str (packages context)] in
  let sandbox_ :=
    sandbox context false
      ["--ro-bind"; Paths.str (packages context);
       Paths.str (packages context)] in
  Fs.open_w index (nodes w) = (fs0, Ok ()) →
  run_process cmdline sandbox_ ∅ fs0 = (fs1, Raise e) →
  createrepo_apt context w
  = (mkWorld fs1 (calls w ++ [EvRun cmdline sandbox_ ∅]), Raise e)
  ∧ fs0 !! index = Some (File "").
Proof.
  intros index cmdline sandbox_ Hopen Hrun. split.
  - unfold createrepo_apt. cbv zeta. fold index cmdline sandbox_.
    unfold_monad. unfold open_w. rewrite fs_step_run, Hopen. simpl.
    by rewrite Hrun.
  - apply open_w_ok in Hopen as [-> _]. apply lookup_insert_eq.
Qed.

End LocalRepositories.

(** ** More on computations *)

Section MoreComputations.
Implicit Types (w : World) (p q : Path).

Lemma touch_other p q (fs : FS) : q ≠ p → (Fs.touch p fs).1 !! q = fs !! q.
Proof.
  intros Hne. unfold Fs.touch. destruct (Fs.lookup p fs); [done|].
  by apply create_other.
Qed.

(** *** [leaves] *)

Lemma leaves_ret {A} q (a : A) : leaves q (mret a).
Proof. by intros w. Qed.

Lemma leaves_bind {A B} q (m : M A) (k : A → M B) :
  leaves q m → (∀ a, leaves q (k a)) → leaves q (m ≫= k).
Proof.
  intros Hm Hk w. rewrite bind_run. specialize (Hm w).
  destruct (m w) as [w1 [a|e]]; [|done]. by rewrite Hk.
Qed.

Lemma leaves_fs_step q (f : FS → FS * result unit) :
  (∀ fs, (f fs).1 !! q = fs !! q) → leaves q (fs_step f).
Proof. intros Hf w. rewrite fs_step_run. apply Hf. Qed.

Lemma leaves_touch q p : q ≠ p → leaves q (touch p).
Proof. intros Hne. apply leaves_fs_step. intros fs. by apply touch_other. Qed.

Lemma leaves_open_w q p : q ≠ p → leaves q (open_w p).
Proof. intros Hne. apply leaves_fs_step. intros fs. by apply open_w_other. Qed.

Lemma leaves_open_a q p : q ≠ p → leaves q (open_a p).
Proof. intros Hne. apply leaves_fs_step. intros fs. by apply open_a_other. Qed.

Lemma leaves_fwrite q p s : q ≠ p → leaves q (fwrite p s).
Proof. intros Hne. apply leaves_fs_step. intros fs. by apply write_other. Qed.

Lemma leaves_path_exists q p : leaves q (path_exists p).
Proof. by intros w. Qed.

Lemma leaves_when q (c : bool) (body : M unit) :
  leaves q body → leaves q (when c body).
Proof. destruct c; [done|]. intros _. apply (leaves_ret q ()). Qed.

Lemma leaves_for {A} q (xs : list A) (body : A → M unit) :
  (∀ x, leaves q (body x)) → leaves q (for_ xs body).
Proof.
  intros Hbody. induction xs as [|x xs IH]; [apply (leaves_ret q ())|].
  apply leaves_bind; auto.
Qed.

Lemma leaves_unless_exists q p (body : M unit) :
  leaves q body → leaves q (unless_exists p body).
Proof.
  intros Hbody. apply leaves_bind; [apply leaves_path_exists|].
  intros e. by apply leaves_when.
Qed.

Lemma leaves_write_text q p s : q ≠ p → leaves q (write_text p s).
Proof.
  intros Hne. apply leaves_bind; [by apply leaves_open_w|].
  intros _. by apply leaves_fwrite.
Qed.

(** *** [unwritten] *)

Lemma unwritten_leaves {A} q (m : M A) : leaves q m → unwritten q m.
Proof. intros Hm w Hq. by rewrite Hm. Qed.

Lemma unwritten_bind {A B} q (m : M A) (k : A → M B) :
  unwritten q m → (∀ a, unwritten q (k a)) → unwritten q (m ≫= k).
Proof.
  intros Hm Hk w Hq. rewrite bind_run. specialize (Hm w Hq).
  destruct (m w) as [w1 [a|e]]; [|done]. by apply Hk.
Qed.

Lemma unwritten_mkdir_p q p : unwritten q (mkdir_p p).
Proof.
  intros w Hq. unfold mkdir_p. rewrite fs_step_run. simpl.
  unfold Fs.mkdir_p.
  destruct (mkdir_from_lookup [] p (nodes w) q) as [->|[_ ->]]; auto.
Qed.

(** *** [writes] *)

Lemma writes_after {A} q (m : M A) (k : A → M unit) text :
  unwritten q m → (∀ a, writes q (k a) text) → writes q (m ≫= k) text.
Proof.
  intros Hm Hk w w' Hq (w1 & a & Hrun1 & Hrun2)%bind_ok.
  apply (Hk a w1 w'); [|done]. specialize (Hm w Hq). by rewrite Hrun1 in Hm.
Qed.

Lemma writes_then q (m1 m2 : M unit) text :
  writes q m1 text → holds q m2 → writes q (m1 ;; m2) text.
Proof.
  intros Hm1 Hm2 w w' Hq (w1 & [] & Hrun1 & Hrun2)%bind_ok.
  destruct (Hm1 w w1 Hq Hrun1) as [Hdir|Hfile]; [left|right];
    by eapply holds_run.
Qed.

(** The write behind an existence check. *)
Lemma writes_unless_exists q (body : M unit) text :
  q ≠ [] →
  (∀ w w', nodes w !! q = None → body w = (w', Ok ()) →
           nodes w' !! q = Some (File text)) →
  writes q (unless_exists q body) text.
Proof.
  intros Hne Hbody w w' Hq. unfold unless_exists.
  rewrite bind_run, path_exists_run. unfold Fs.exists_.
  rewrite lookup_nonempty by done. destruct Hq as [Hq|Hq]; rewrite Hq.
  - rewrite bool_decide_eq_false_2 by (by intros [? ?]). simpl.
    intros Hrun. right. by eapply Hbody.
  - rewrite bool_decide_eq_true_2 by eauto. simpl. intros [= <-]. by left.
Qed.

(** *** [ensures_dir] *)

Lemma ensures_dir_mkdir_p p : p ≠ [] → ensures_dir p (mkdir_p p).
Proof.
  intros Hne w w' [Hrun _]%fs_step_ok.
  apply mkdir_from_ok in Hrun. by apply (all_dirs_last [] p) in Hrun.
Qed.

Lemma ensures_dir_then p (m1 m2 : M unit) :
  ensures_dir p m1 → monotone m2 → ensures_dir p (m1 ;; m2).
Proof.
  intros Hm1 Hm2 w w' (w1 & [] & Hrun1 & Hrun2)%bind_ok.
  specialize (Hm2 w1). rewrite Hrun2 in Hm2. by apply Hm2, (Hm1 w).
Qed.

Lemma ensures_dir_after {A} p (m : M A) (k : A → M unit) :
  (∀ a, ensures_dir p (k a)) → ensures_dir p (m ≫= k).
Proof.
  intros Hk w w' (w1 & a & Hrun1 & Hrun2)%bind_ok. by eapply Hk.
Qed.

(** *** [silent] *)

Lemma silent_ret {A} (a : A) : silent (mret a).
Proof. by intros w. Qed.

Lemma silent_bind {A B} (m : M A) (k : A → M B) :
  silent m → (∀ a, silent (k a)) → silent (m ≫= k).
Proof.
  intros Hm Hk w. rewrite bind_run. specialize (Hm w).
  destruct (m w) as [w1 [a|e]]; [|done]. by rewrite Hk.
Qed.

Lemma silent_fs_step (f : FS → FS * result unit) : silent (fs_step f).
Proof. intros w. by rewrite fs_step_run. Qed.

Lemma silent_path_exists p : silent (path_exists p).
Proof. by intros w. Qed.

Lemma silent_when (c : bool) (body : M unit) :
  silent body → silent (when c body).
Proof. destruct c; [done|]. intros _. apply (silent_ret ()). Qed.

Lemma silent_for {A} (xs : list A) (body : A → M unit) :
  (∀ x, silent (body x)) → silent (for_ xs body).
Proof.
  intros Hbody. induction xs as [|x xs IH]; [apply (silent_ret ())|].
  apply silent_bind; auto.
Qed.

Lemma silent_unless_exists p (body : M unit) :
  silent body → silent (unless_exists p body).
Proof.
  intros Hbody. apply silent_bind; [apply silent_path_exists|].
  intros e. by apply silent_when.
Qed.

(** The write behind an existence check leaves every entry that is
    there. *)
Lemma holds_unless_exists_any q p (body : M unit) :
  p ≠ [] → (q ≠ p → holds q body) → holds q (unless_exists p body).
Proof.
  intros Hne Hbody. destruct (decide (q = p)) as [->|Hqp].
  - by apply holds_unless_exists.
  - apply holds_bind; [apply holds_path_exists|].
    intros e. apply holds_when. auto.
Qed.

End MoreComputations.

(** ** More on [setup_apt] *)

Section SetupAptMore.
Context `{Collaborators}.
Implicit Types (context : Context) (repos : list string) (w : World).

Lemma apt_conf_nonempty context : workspace context </> "apt.conf" ≠ [].
Proof.
  change (workspace context ++ ["apt.conf"] ≠ []).
  by destruct (workspace context).
Qed.

Lemma sources_list_nonempty context :
  pkgmngr context </> "etc/apt/sources.list" ≠ [].
Proof.
  change (pkgmngr context ++ ["etc"; "apt"; "sources.list"] ≠ []).
  by destruct (pkgmngr context).
Qed.

Lemma sources_list_not_apt_conf context :
  pkgmngr context </> "etc/apt/sources.list" ≠ workspace context </> "apt.conf".
Proof.
  change (pkgmngr context ++ ["etc"; "apt"; "sources.list"]
          ≠ workspace context ++ ["apt.conf"]).
  intros Heq. apply (f_equal last) in Heq.
  rewrite !last_app in Heq. discriminate.
Qed.

Lemma sources_list_not_status context :
  pkgmngr context </> "etc/apt/sources.list"
  ≠ root context </> "var/lib/dpkg/status".
Proof.
  change (pkgmngr context ++ ["etc"; "apt"; "sources.list"]
          ≠ root context ++ ["var"; "lib"; "dpkg"; "status"]).
  intros Heq. apply (f_equal last) in Heq.
  rewrite !last_app in Heq. discriminate.
Qed.

Lemma apt_conf_not_status context :
  workspace context </> "apt.conf" ≠ root context </> "var/lib/dpkg/status".
Proof.
  change (workspace context ++ ["apt.conf"]
          ≠ root context ++ ["var"; "lib"; "dpkg"; "status"]).
  intros Heq. apply (f_equal last) in Heq.
  rewrite !last_app in Heq. discriminate.
Qed.

Lemma holds_write_sources q p repos :
  q ≠ p →
  holds q (open_w p ;; for_ repos (λ repo, fwrite p (repo +:+ Py.NL))).
Proof.
  intros Hne. apply holds_bind; [by apply holds_open_w|]. intros _.
  apply holds_for. intros repo. by apply holds_fwrite.
Qed.

Lemma leaves_write_sources q p repos :
  q ≠ p →
  leaves q (open_w p ;; for_ repos (λ repo, fwrite p (repo +:+ Py.NL))).
Proof.
  intros Hne. apply leaves_bind; [by apply leaves_open_w|]. intros _.
  apply leaves_for. intros repo. by apply leaves_fwrite.
Qed.

(** X9: [setup_apt] changes no entry that is there, file or directory,
    whatever the repositories it is given and whether it returns or
    raises; and it calls no collaborator. *)
Theorem setup_apt_keeps_entries context repos w (q : Path) (n : node) :
  nodes w !! q = Some n →
  nodes (setup_apt context repos w).1 !! q = Some n
  ∧ calls (setup_apt context repos w).1 = calls w.
Proof.
  intros Hq. split.
  - revert w n Hq. change (holds q (setup_apt context repos)).
    unfold setup_apt, with_umask. cbv zeta.
    repeat (apply holds_bind; [|intros _]);
      try apply holds_mkdir_p; try apply holds_touch.
    + apply holds_unless_exists_any; [apply apt_conf_nonempty|].
      intros Hne. by apply holds_write_text.
    + apply holds_unless_exists_any; [apply sources_list_nonempty|].
      intros Hne. by apply holds_write_sources.
  - revert w n Hq. intros w _ _. revert w.
    change (silent (setup_apt context repos)).
    unfold setup_apt, with_umask. cbv zeta.
    repeat (apply silent_bind; [|intros _]); try apply silent_fs_step.
    + apply silent_unless_exists.
      apply silent_bind; [|intros _]; apply silent_fs_step.
    + apply silent_unless_exists.
      apply silent_bind; [apply silent_fs_step|intros _].
      apply silent_for. intros repo. apply silent_fs_step.
Qed.

Lemma skeleton_nonempty (base : Path) (s : string) :
  Paths.parts s ≠ [] → base </> s ≠ [].
Proof.
  intros Hs Heq. unfold Paths.join in Heq.
  apply app_eq_nil in Heq as [_ Heq]. contradiction.
Qed.

Lemma monotone_setup_apt_files context repos :
  monotone
    (unless_exists (workspace context </> "apt.conf")
       (write_text (workspace context </> "apt.conf") apt_conf_text) ;;
     unless_exists (pkgmngr context </> "etc/apt/sources.list")
       (open_w (pkgmngr context </> "etc/apt/sources.list") ;;
        for_ repos
          (λ repo,
             fwrite (pkgmngr context </> "etc/apt/sources.list")
               (repo +:+ Py.NL)))).
Proof. auto 10 using monotone_write_sources with fs. Qed.

(** X10: when [setup_apt] returns, the directories it is to provide are
    directories, three under [etc/apt] of the overlay, the dpkg
    directory of the root and the two of the cache, and the dpkg status
    file exists. *)
Theorem setup_apt_skeleton context repos w w' :
  setup_apt context repos w = (w', Ok ()) →
  Forall (λ d, nodes w' !! d = Some Dir)
    [pkgmngr context </> "etc/apt";
     pkgmngr context </> "etc/apt/apt.conf.d";
     pkgmngr context </> "etc/apt/preferences.d";
     pkgmngr context </> "etc/apt/sources.list.d";
     root context </> "var/lib/dpkg";
     cache_dir context </> "lib/apt";
     cache_dir context </> "cache/apt"]
  ∧ Fs.exists_ (root context </> "var/lib/dpkg/status") (nodes w') = true.
Proof.
  intros Hrun.
  pose proof (monotone_setup_apt_files context repos) as Hfiles.
  split.
  - repeat constructor; revert w w' Hrun;
      match goal with
      | |- ∀ w w', _ → nodes w' !! ?d = Some Dir =>
          change (ensures_dir d (setup_apt context repos))
      end;
      unfold setup_apt, with_umask; cbv zeta;
      repeat first
        [ apply ensures_dir_then;
          [apply ensures_dir_mkdir_p, skeleton_nonempty; discriminate
          |auto 20 with fs]
        | apply ensures_dir_then;
          [apply ensures_dir_then;
           [apply ensures_dir_mkdir_p, skeleton_nonempty; discriminate
           |auto with fs]
          |auto 20 with fs]
        | apply ensures_dir_after; intros _ ].
  - revert w w' Hrun.
    change (ensures (root context </> "var/lib/dpkg/status")
              (setup_apt context repos)).
    unfold setup_apt, with_umask. cbv zeta.
    do 4 (apply ensures_after; intros _).
    apply ensures_then; [|auto 20 with fs].
    apply ensures_after. intros _. apply ensures_touch.
Qed.

End SetupAptMore.

(** ** The files [setup_apt] writes *)

Section SetupAptFiles.
Context `{Collaborators}.
Implicit Types (context : Context) (repos : list string) (w : World).

(** The source list as one text: each repository and a line feed. *)
Lemma write_sources_ok p repos w w' :
  nodes w !! p = None →
  (open_w p ;; for_ repos (λ repo, fwrite p (repo +:+ Py.NL))) w
  = (w', Ok ()) →
  nodes w' !! p = Some (File (cat ((λ repo, repo +:+ Py.NL) <$> repos))).
Proof.
  intros _ (w1 & [] & [Hopen _]%fs_step_ok & Hloop)%bind_ok.
  apply open_w_ok in Hopen as [Hw1 _].
  rewrite (appends_for p repos _ (λ repo, repo +:+ Py.NL)
             (λ repo, appends_fwrite p (repo +:+ Py.NL)) w1 "") in Hloop
    by (rewrite Hw1; apply lookup_insert_eq).
  injection Hloop as <-. simpl. apply lookup_insert_eq.
Qed.

Lemma writes_sources_list context repos :
  writes (pkgmngr context </> "etc/apt/sources.list")
    (setup_apt context repos)
    (cat ((λ repo, repo +:+ Py.NL) <$> repos)).
Proof.
  unfold setup_apt, with_umask. cbv zeta.
  do 4 (apply writes_after; [apply unwritten_mkdir_p|intros _]).
  apply writes_after; [|intros _].
  { apply unwritten_bind; [apply unwritten_mkdir_p|intros _].
    apply unwritten_leaves, leaves_touch, sources_list_not_status. }
  do 2 (apply writes_after; [apply unwritten_mkdir_p|intros _]).
  apply writes_after; [|intros _].
  { apply unwritten_leaves, leaves_unless_exists, leaves_write_text,
      sources_list_not_apt_conf. }
  apply writes_unless_exists; [apply sources_list_nonempty|].
  intros w w'. apply write_sources_ok.
Qed.

Lemma writes_apt_conf context repos :
  writes (workspace context </> "apt.conf") (setup_apt context repos)
    apt_conf_text.
Proof.
  unfold setup_apt, with_umask. cbv zeta.
  do 4 (apply writes_after; [apply unwritten_mkdir_p|intros _]).
  apply writes_after; [|intros _].
  { apply unwritten_bind; [apply unwritten_mkdir_p|intros _].
    apply unwritten_leaves, leaves_touch, apt_conf_not_status. }
  do 2 (apply writes_after; [apply unwritten_mkdir_p|intros _]).
  apply writes_then.
  - apply writes_unless_exists; [apply apt_conf_nonempty|].
    intros w w' _. apply write_text_ok.
  - apply holds_unless_exists_any; [apply sources_list_nonempty|].
    intros Hne. by apply holds_write_sources.
Qed.

(** X11: when there is no source list and [setup_apt] returns, the
    source list holds the repositories, each followed by a line feed,
    in the order given, and nothing for no repository; when no
    repository holds a line feed, its lines are the repositories.  The
    one other outcome is a directory at that path, made because another
    directory of the skeleton lies below it. *)
Theorem setup_apt_sources_list context repos w w' :
  let sources := pkgmngr context </> "etc/apt/sources.list" in
  nodes w !! sources = None →
  setup_apt context repos w = (w', Ok ()) →
  nodes w' !! sources = Some Dir
  ∨ (nodes w' !! sources
     = Some (File (cat ((λ repo, repo +:+ Py.NL) <$> repos)))
     ∧ (Forall (λ repo, one_line repo = true) repos →
        Py.lines (cat ((λ repo, repo +:+ Py.NL) <$> repos)) = repos)).
Proof.
  intros sources Hfresh Hrun.
  destruct (writes_sources_list context repos w w') as [Hdir|Hfile];
    [by left|done|by left|].
  right. split; [exact Hfile|]. apply lines_cat.
Qed.

(** X12: when there is no auxiliary configuration and [setup_apt]
    returns, the configuration holds the one line that points apt at
    [etc/apt]; the one other outcome is a directory at that path, made
    because a directory of the skeleton lies below it. *)
Theorem setup_apt_apt_conf context repos w w' :
  let config_ := workspace context </> "apt.conf" in
  nodes w !! config_ = None →
  setup_apt context repos w = (w', Ok ()) →
  nodes w' !! config_ = Some Dir
  ∨ (∃ text, nodes w' !! config_ = Some (File text)
     ∧ Py.lines text = ["Dir::Etc " +:+ dquote +:+ "etc/apt" +:+ dquote +:+ ";"]
     ∧ text
       = "Dir::Etc " +:+ dquote +:+ "etc/apt" +:+ dquote +:+ ";" +:+ Py.NL).
Proof.
  intros config_ Hfresh Hrun.
  destruct (writes_apt_conf context repos w w') as [Hdir|Hfile];
    [by left|done|by left|].
  right. exists apt_conf_text. split; [exact Hfile|].
  split; vm_compute; reflexivity.
Qed.

End SetupAptFiles.

(** ** More on [setup_zypper] *)

Section SetupZypperMore.
Context `{Collaborators}.
Implicit Types (context : Context) (repos : list RpmRepository) (w : World).


(** X14: [setup_zypper] leaves a repo file that is there as it is,
    whatever repositories it is given and whether it returns or raises:
    a change of the repositories does not reach the file.  [setup_rpm]
    is taken not to touch the file. *)
Theorem setup_zypper_keeps_repofile context repos w (n : node) :
  let repofile := pkgmngr context </> "etc/zypp/repos.d/mkosi.repo" in
  keeps_path (setup_rpm_fs context) repofile →
  nodes w !! repofile = Some n →
  nodes (setup_zypper context repos w).1 !! repofile = Some n.
Proof.
  intros repofile Hframe Hfile.
  by apply setup_zypper_holds_repofile.
Qed.

(** [zypp.conf] after a [setup_zypper] that returned. *)
Lemma zypp_conf_after_setup context repos w w' :
  let config_ := pkgmngr context </> "etc/zypp/zypp.conf" in
  keeps_path (setup_rpm_fs context) config_ →
  setup_zypper context repos w = (w', Ok ()) →
  nodes w' !! config_
  = Some (File (match nodes w !! config_ with
                | Some (File c) => c
                | _ => ""
                end +:+ zypp_conf_text context)).
Proof.
  intros config_ Hframe Hrun. subst config_.
  unfold setup_zypper in Hrun. cbv zeta in Hrun.
  apply bind_ok in Hrun as (w1 & [] & Hmk1 & Hrun).
  apply bind_ok in Hrun as (w2 & [] & Hmk2 & Hrun).
  apply bind_ok in Hrun as (w3 & [] & Happend & Hrun).
  apply append_to_file in Happend as (c & Hc & Hw3).
  eapply (holds_run _ _ _ _ _ _ (holds_zypp_conf_rest context repos Hframe))
    in Hw3; [|exact Hrun].
  rewrite Hw3. do 3 f_equal.
  pose proof (mkdir_p_lookup _ (pkgmngr context </> "etc/zypp/zypp.conf")
                _ _ _ Hmk1) as Hl1.
  pose proof (mkdir_p_lookup _ (pkgmngr context </> "etc/zypp/zypp.conf")
                _ _ _ Hmk2) as Hl2.
  destruct Hc as [Hc|[Hc ->]].
  - destruct Hl2 as [Hl2|[_ Hl2]]; [|congruence].
    destruct Hl1 as [Hl1|[_ Hl1]]; [|congruence].
    by rewrite <- Hl1, <- Hl2, Hc.
  - destruct Hl2 as [Hl2|[_ Hl2]]; [|congruence].
    destruct Hl1 as [Hl1|[-> _]]; [|done].
    by rewrite <- Hl1, <- Hl2, Hc.
Qed.

(** X15: [setup_zypper] is not idempotent on [zypp.conf]: after two
    calls that returned, also with different repositories, the file
    holds what it held at first followed by the tuning block twice.
    [setup_rpm] is taken not to touch the file. *)
Theorem setup_zypper_twice_appends_twice context repos repos' w w1 w2 :
  let config_ := pkgmngr context </> "etc/zypp/zypp.conf" in
  let prior :=
    match nodes w !! config_ with Some (File c) => c | _ => "" end in
  keeps_path (setup_rpm_fs context) config_ →
  setup_zypper context repos w = (w1, Ok ()) →
  setup_zypper context repos' w1 = (w2, Ok ()) →
  nodes w2 !! config_
  = Some (File (prior +:+ zypp_conf_text context +:+ zypp_conf_text context)).
Proof.
  intros config_ prior Hframe Hrun1 Hrun2. subst config_ prior.
  apply zypp_conf_after_setup in Hrun1; [|done].
  apply zypp_conf_after_setup in Hrun2; [|done].
  rewrite Hrun1 in Hrun2. by rewrite Hrun2, append_assoc.
Qed.

(** X16: when the path of [zypp.conf] is a directory, [setup_zypper]
    raises, and [setup_rpm] is not called. *)
Theorem setup_zypper_conf_is_directory context repos w :
  nodes w !! (pkgmngr context </> "etc/zypp/zypp.conf") = Some Dir →
  (∃ e, (setup_zypper context repos w).2 = Raise e)
  ∧ calls (setup_zypper context repos w).1 = calls w.
Proof.
  intros Hdir. unfold setup_zypper. cbv zeta. rewrite bind_run.
  destruct (mkdir_p (Paths.parent (pkgmngr context </> "etc/zypp/zypp.conf"))
              w) as [w1 [[]|e1]] eqn:Hmk1.
  2: { pose proof (silent_fs_step
                     (Fs.mkdir_p (Paths.parent
                        (pkgmngr context </> "etc/zypp/zypp.conf"))) w) as Hs.
       unfold mkdir_p in Hmk1. rewrite Hmk1 in Hs. eauto. }
  pose proof (holds_run _ _ _ _ _ _ (holds_mkdir_p _ _) Hmk1 Hdir) as Hdir1.
  apply fs_step_ok in Hmk1 as [_ Hcalls1]. rewrite bind_run.
  destruct (mkdir_p (cache_dir context </> "cache/zypp") w1)
    as [w2 [[]|e2]] eqn:Hmk2.
  2: { pose proof (silent_fs_step
                     (Fs.mkdir_p (cache_dir context </> "cache/zypp")) w1)
         as Hs.
       unfold mkdir_p in Hmk2. rewrite Hmk2 in Hs. simpl in *.
       split; [eauto|congruence]. }
  pose proof (holds_run _ _ _ _ _ _ (holds_mkdir_p _ _) Hmk2 Hdir1) as Hdir2.
  apply fs_step_ok in Hmk2 as [_ Hcalls2].
  assert (open_a (pkgmngr context </> "etc/zypp/zypp.conf") w2
          = (w2, Raise (IsADirectoryError
                          (pkgmngr context </> "etc/zypp/zypp.conf"))))
    as Hopen.
  { unfold open_a. rewrite fs_step_run. unfold Fs.open_a.
    rewrite lookup_nonempty by apply zypp_conf_nonempty.
    rewrite Hdir2. by destruct w2. }
  rewrite !bind_run, Hopen. simpl. split; [eauto|congruence].
Qed.

(** X17: [setup_zypper] calls [setup_rpm] last and once, after all its
    own file work has succeeded, and calls nothing else: when it
    returns the one call it made is [setup_rpm], and when it raises it
    made that call or none. *)
Theorem setup_zypper_calls context repos w :
  let w' := (setup_zypper context repos w).1 in
  (new_calls w w' = [] ∨ new_calls w w' = [EvSetupRpm])
  ∧ ((setup_zypper context repos w).2 = Ok () →
     new_calls w w' = [EvSetupRpm]).
Proof.
  assert (∀ (m : M unit) (k : M unit) w0,
    silent m →
    calls w0 = calls w →
    (∀ w1, calls w1 = calls w →
       (new_calls w (k w1).1 = [] ∨ new_calls w (k w1).1 = [EvSetupRpm])
       ∧ ((k w1).2 = Ok () → new_calls w (k w1).1 = [EvSetupRpm])) →
    (new_calls w ((m ;; k) w0).1 = []
     ∨ new_calls w ((m ;; k) w0).1 = [EvSetupRpm])
    ∧ (((m ;; k) w0).2 = Ok () → new_calls w ((m ;; k) w0).1 = [EvSetupRpm]))
    as Hstep.
  { intros m k w0 Hm Hw0 Hk. rewrite bind_run. specialize (Hm w0).
    destruct (m w0) as [w1 [[]|e]]; simpl in *.
    - apply Hk. congruence.
    - split; [|done]. left. unfold new_calls. rewrite Hm, Hw0.
      apply drop_all. }
  intros w'. subst w'. unfold setup_zypper. cbv zeta.
  apply Hstep; [apply silent_fs_step|done|]. intros w1 Hw1.
  apply Hstep; [apply silent_fs_step|done|]. intros w2 Hw2.
  apply Hstep; [|done|].
  { apply silent_bind; [|intros _]; apply silent_fs_step. }
  intros w3 Hw3. apply Hstep; [|done|].
  { apply silent_unless_exists.
    apply silent_bind; [apply silent_fs_step|intros _].
    apply silent_bind; [apply silent_fs_step|intros _].
    apply silent_for. intros repo. unfold write_repo.
    apply silent_bind; [apply silent_fs_step|intros _].
    apply silent_for. intros [i url_]. unfold write_gpgurl.
    apply silent_bind; [|intros _]; apply silent_fs_step. }
  intros w4 Hw4. unfold setup_rpm, call.
  destruct (setup_rpm_fs context (nodes w4)) as [fs r]. simpl.
  rewrite Hw4, new_calls_app. auto.
Qed.

End SetupZypperMore.

(** ** Dedenting an indented block *)

Section Dedent.
Implicit Types (s t a b c : string) (n : nat) (cs : list string).

Lemma dedent_split text : Py.dedent text = dedent_lines (Py.split_lines text).
Proof. reflexivity. Qed.

Lemma spaces_S n s : Py.spaces (S n) +:+ s = String " " (Py.spaces n +:+ s).
Proof. reflexivity. Qed.

Lemma all_blank_spaces n s : Py.all_blank (Py.spaces n +:+ s) = Py.all_blank s.
Proof. induction n as [|n IH]; [done|]. by rewrite spaces_S. Qed.

Lemma leading_blanks_spaces n s :
  Py.leading_blanks (Py.spaces n +:+ s) = Py.spaces n +:+ Py.leading_blanks s.
Proof.
  induction n as [|n IH]; [done|]. rewrite !spaces_S. simpl. by rewrite IH.
Qed.

Lemma prefix_spaces n a b :
  String.prefix (Py.spaces n +:+ a) (Py.spaces n +:+ b) = String.prefix a b.
Proof.
  induction n as [|n IH]; [done|]. rewrite !spaces_S. simpl.
  by destruct (ascii_dec " " " ").
Qed.

Lemma common_prefix_spaces n a b :
  Py.common_prefix (Py.spaces n +:+ a) (Py.spaces n +:+ b)
  = Py.spaces n +:+ Py.common_prefix a b.
Proof.
  induction n as [|n IH]; [done|]. rewrite !spaces_S. simpl.
  by rewrite IH.
Qed.

Lemma strip_prefix_spaces n s :
  Py.strip_prefix (Py.spaces n) (Py.spaces n +:+ s) = Some s.
Proof.
  induction n as [|n IH]; [by destruct s|]. rewrite spaces_S. simpl.
  exact IH.
Qed.

Lemma prefix_nil_r a : String.prefix a "" = true → a = "".
Proof. by destruct a. Qed.

(** One turn of the loop keeps a margin of [n] spaces and what follows
    them in both; nothing follows once nothing follows in one. *)
Lemma margin_step_spaces n a b :
  ∃ x, Py.margin_step (Some (Py.spaces n +:+ a)) (Py.spaces n +:+ b)
       = Some (Py.spaces n +:+ x)
       ∧ (a = "" ∨ b = "" → x = "").
Proof.
  unfold Py.margin_step. rewrite !prefix_spaces.
  destruct (String.prefix a b) eqn:Hab.
  { exists a. split; [done|]. intros [-> | ->]; [done|].
    by apply prefix_nil_r. }
  destruct (String.prefix b a) eqn:Hba.
  { exists b. split; [done|]. intros [-> | ->]; [|done].
    by apply prefix_nil_r. }
  exists (Py.common_prefix a b). rewrite common_prefix_spaces.
  split; [done|]. intros [-> | ->]; [done|]. by destruct a.
Qed.

Lemma fold_margin_spaces n a inds :
  Forall (λ i, ∃ b, i = Py.spaces n +:+ b) inds →
  ∃ x, foldl Py.margin_step (Some (Py.spaces n +:+ a)) inds
       = Some (Py.spaces n +:+ x)
       ∧ (a = "" ∨ Py.spaces n +:+ "" ∈ inds → x = "").
Proof.
  intros Hinds. revert a.
  induction Hinds as [|i inds [b ->] Hinds IH]; intros a.
  { exists a. split; [done|]. intros [-> | Hin]; [done|].
    by apply elem_of_nil in Hin. }
  cbn [foldl]. destruct (margin_step_spaces n a b) as (x & -> & Hx).
  destruct (IH x) as (y & -> & Hy). exists y. split; [done|].
  intros [-> | Hin]; [auto|].
  apply elem_of_cons in Hin as [Heq|Hin]; [|auto].
  apply Hy. left. apply Hx. right.
  by apply (inj (String.append (Py.spaces n))) in Heq.
Qed.

(** A block whose lines all start with the same [n] spaces, one of them
    with another character right after, loses these spaces; its lines of
    spaces and tabs come out empty. *)
Lemma dedent_lines_indented n cs c :
  n ≠ 0 → c ∈ cs → Py.all_blank c = false → Py.leading_blanks c = "" →
  dedent_lines ((λ l, Py.spaces n +:+ l) <$> cs)
  = Py.join_lines (blank_to_empty <$> cs).
Proof.
  intros Hn Hc Hblank Hlead. unfold dedent_lines. cbv zeta.
  rewrite <- list_fmap_compose.
  assert (Py.find_margin
            ((Py.normalize_blank_line ∘ (λ l, Py.spaces n +:+ l)) <$> cs)
          = Some (Py.spaces n)) as ->.
  { unfold Py.find_margin, Py.indents.
    assert (∀ cs', ∃ inds,
      Py.leading_blanks
        <$> filter (λ l, Py.all_blank l = false)
              ((Py.normalize_blank_line ∘ (λ l, Py.spaces n +:+ l)) <$> cs')
      = inds
      ∧ Forall (λ i, ∃ b, i = Py.spaces n +:+ b) inds
      ∧ (c ∈ cs' → Py.spaces n +:+ "" ∈ inds)) as Hinds.
    { induction cs' as [|l cs' (inds & Heq & Hall & Hin)].
      { exists []. split; [done|]. split; [done|].
        intros Hnil. by apply elem_of_nil in Hnil. }
      rewrite fmap_cons. unfold compose at 1, Py.normalize_blank_line at 1.
      rewrite all_blank_spaces.
      destruct (Py.all_blank l) eqn:Hl.
      - rewrite filter_cons_False by done. exists inds.
        split; [done|]. split; [done|].
        intros [->|Hin']%elem_of_cons; [congruence|auto].
      - rewrite filter_cons_True by (by rewrite all_blank_spaces).
        rewrite fmap_cons, leading_blanks_spaces, Heq.
        eexists. split; [reflexivity|]. split.
        + constructor; [eauto|done].
        + intros [<-|Hin']%elem_of_cons.
          * rewrite Hlead. apply list_elem_of_here.
          * apply list_elem_of_further. auto. }
    destruct (Hinds cs) as (inds & -> & Hall & Hin).
    specialize (Hin Hc). destruct Hall as [|i inds [b ->] Hall].
    { by apply elem_of_nil in Hin. }
    cbn [foldl Py.margin_step].
    destruct (fold_margin_spaces n b inds Hall) as (x & -> & Hx).
    rewrite Hx; [by rewrite append_nil_r|].
    apply elem_of_cons in Hin as [Heq|Hin]; [left|by right].
    by apply (inj (String.append (Py.spaces n))) in Heq. }
  assert (∀ m (ls : list string), m ≠ "" →
    match Some m with
    | Some (String c' m') =>
        Py.join_lines (Py.remove_margin (String c' m') <$> ls)
    | _ => Py.join_lines ls
    end = Py.join_lines (Py.remove_margin m <$> ls)) as Hbranch
    by (by intros [|c' m'] ls).
  rewrite Hbranch by (by destruct n).
  f_equal. rewrite <- list_fmap_compose. apply list_fmap_ext.
  intros _ l _. unfold compose, Py.normalize_blank_line, blank_to_empty.
  rewrite all_blank_spaces.
  destruct (Py.all_blank l); [by destruct n|].
  unfold Py.remove_margin. by rewrite strip_prefix_spaces.
Qed.

End Dedent.

(** ** The header of a repository block *)

Section RepoHeader.
Implicit Types (repo : RpmRepository) (s t : string).

Lemma one_line_split s : one_line s = true → Py.split_lines s = [s].
Proof.
  intros Hs. rewrite <- (append_nil_r s) at 1.
  induction s as [|c s IH]; [done|].
  simpl in Hs. apply andb_true_iff in Hs as [Hc Hs].
  apply negb_true_iff, bool_decide_eq_false in Hc.
  rewrite append_cons. unfold Py.split_lines in *. simpl.
  rewrite decide_False by done. by rewrite IH.
Qed.

(** The literal of the header, line by line. *)
Lemma repo_header_lines repo :
  one_line (Rpm.id repo) = true →
  one_line (Rpm.url repo) = true →
  ∃ text,
    repo_header repo = Py.dedent text ∧
    Py.split_lines text
    = [Py.spaces 24 +:+ "[" +:+ Rpm.id repo +:+ "]";
       Py.spaces 24 +:+ "name=" +:+ Rpm.id repo;
       Py.spaces 24 +:+ Rpm.url repo;
       Py.spaces 24 +:+ "gpgcheck=1";
       Py.spaces 24 +:+ "enabled="
         +:+ Py.str_nat (Py.int_of_bool (Rpm.enabled repo));
       Py.spaces 24 +:+ "autorefresh=1";
       Py.spaces 24 +:+ "keeppackages=1";
       Py.spaces 24].
Proof.
  intros Hid Hurl. eexists. split; [reflexivity|].
  assert (∀ b : bool, one_line (Py.str_nat (Py.int_of_bool b)) = true) as Hint
    by (by intros []).
  match goal with
  | |- Py.split_lines ?text = [?l1; ?l2; ?l3; ?l4; ?l5; ?l6; ?l7; ?l8] =>
      replace text with
        ((l1 +:+ Py.NL) +:+ (l2 +:+ Py.NL) +:+ (l3 +:+ Py.NL)
         +:+ (l4 +:+ Py.NL) +:+ (l5 +:+ Py.NL) +:+ (l6 +:+ Py.NL)
         +:+ (l7 +:+ Py.NL) +:+ l8)
        by (rewrite !append_assoc; reflexivity)
  end.
  rewrite !split_lines_line;
    [reflexivity|repeat (apply one_line_append; try done)..].
Qed.

(** X18: for an identifier and a URL line without line feed, the header
    of a repository block is the seven lines of the stanza, without
    indentation: the identifier in brackets and as the name, the URL
    line, the forced signature check, the enabled flag as [1] or [0],
    and the two fixed flags.  A URL line of spaces and tabs only, or an
    empty one, comes out as an empty line. *)
Theorem repo_header_text repo :
  one_line (Rpm.id repo) = true →
  one_line (Rpm.url repo) = true →
  repo_header repo
  = "[" +:+ Rpm.id repo +:+ "]
name=" +:+ Rpm.id repo +:+ "
" +:+ blank_to_empty (Rpm.url repo) +:+ "
gpgcheck=1
enabled=" +:+ (if Rpm.enabled repo then "1" else "0") +:+ "
autorefresh=1
keeppackages=1
".
Proof.
  intros Hid Hurl.
  destruct (repo_header_lines repo Hid Hurl) as (text & -> & Hsplit).
  rewrite dedent_split, Hsplit.
  change (dedent_lines
            ((λ l, Py.spaces 24 +:+ l)
             <$> ["[" +:+ Rpm.id repo +:+ "]";
                  "name=" +:+ Rpm.id repo;
                  Rpm.url repo;
                  "gpgcheck=1";
                  "enabled="
                    +:+ Py.str_nat (Py.int_of_bool (Rpm.enabled repo));
                  "autorefresh=1";
                  "keeppackages=1";
                  ""])
          = "[" +:+ Rpm.id repo +:+ "]
name=" +:+ Rpm.id repo +:+ "
" +:+ blank_to_empty (Rpm.url repo) +:+ "
gpgcheck=1
enabled=" +:+ (if Rpm.enabled repo then "1" else "0") +:+ "
autorefresh=1
keeppackages=1
").
  rewrite (dedent_lines_indented 24 _ ("[" +:+ Rpm.id repo +:+ "]"));
    [|done|apply list_elem_of_here|reflexivity|reflexivity].
  rewrite !fmap_cons.
  change (blank_to_empty ("[" +:+ Rpm.id repo +:+ "]"))
    with ("[" +:+ Rpm.id repo +:+ "]").
  change (blank_to_empty ("name=" +:+ Rpm.id repo))
    with ("name=" +:+ Rpm.id repo).
  change (blank_to_empty
            ("enabled=" +:+ Py.str_nat (Py.int_of_bool (Rpm.enabled repo))))
    with ("enabled=" +:+ Py.str_nat (Py.int_of_bool (Rpm.enabled repo))).
  cbn [Py.join_lines fmap list_fmap].
  destruct (Rpm.enabled repo); rewrite !append_assoc; reflexivity.
Qed.

End RepoHeader.

(** ** The further properties at a concrete build *)

(** A step on the file system that ended with [Ok a], by its outcome
    alone. *)
Lemma step_returned {A} (x : FS * result A) (a : A) :
  x.2 = Ok a → x = (x.1, Ok a).
Proof. destruct x as [fs r]. simpl. by intros ->. Qed.

Lemma invoke_without_mounts_witness :
  let C := Sample.collaborators 0 "" (Some (OtherError "mount")) in
  (invoke_zypper (Reference.a_context true true) "install" ["vim"] [] true
     Reference.empty_world).2
  = Raise (OtherError "mount").
Proof.
  intros C.
  destruct (invoke_without_mounts (Reference.a_context true true) "apt-get"
              "install" "install" ["vim"] [] [] true Reference.empty_world
              ∅ (OtherError "mount")) as [_ Hzypper]; [reflexivity|].
  by rewrite Hzypper.
Defined.

Lemma invoke_apt_outcome_witness :
  let C := Reference.collaborators 1 in
  (invoke_apt (Reference.a_context true true) "apt-get" "install" ["vim"]
     true [] Reference.empty_world).2
  = Raise (CalledProcessError 1).
Proof.
  intros C.
  destruct (invoke_apt_outcome (Reference.a_context true true) "apt-get"
              "install" ["vim"] [] true Reference.empty_world ∅ [])
    as (v & fs2 & r & fs3 & r3 & _ & Hrun & Hexit & _ & _ & Hresult);
    [reflexivity|].
  rewrite Hresult. injection Hrun as _ <-. by injection Hexit as _ <-.
Defined.

Lemma createrepo_zypper_definition_witness :
  let C := Reference.collaborators 0 in
  ∃ text,
    nodes (createrepo_zypper (Reference.a_context true true)
             Reference.workspace_world).1
      !! (pkgmngr (Reference.a_context true true)
          </> "etc/zypp/repos.d/mkosi-packages.repo")
    = Some (File text).
Proof.
  intros C.
  destruct (createrepo_zypper_definition (Reference.a_context true true)
              Reference.workspace_world
              (createrepo_zypper (Reference.a_context true true)
                 Reference.workspace_world).1) as (text & Hfile & _).
  - apply returned. vm_compute. reflexivity.
  - by exists text.
Defined.

Lemma createrepo_zypper_failure_witness :
  let C := Reference.collaborators 1 in
  (createrepo_zypper (Reference.a_context true true)
     Reference.workspace_world).2
  = Raise (CalledProcessError 1).
Proof.
  intros C.
  rewrite (createrepo_zypper_failure (Reference.a_context true true)
             Reference.workspace_world (nodes Reference.workspace_world)
             (CalledProcessError 1)); reflexivity.
Defined.

Lemma createrepo_apt_files_witness :
  let C := Sample.collaborators 0 "Package: hello
" None in
  nodes (createrepo_apt (Reference.a_context true true)
           Reference.workspace_world).1
    !! (packages (Reference.a_context true true) </> "Packages")
  = Some (File "Package: hello
").
Proof.
  intros C.
  destruct (createrepo_apt_files (Reference.a_context true true)
              Reference.workspace_world
              (createrepo_apt (Reference.a_context true true)
                 Reference.workspace_world).1)
    as (fs0 & fs1 & out & _ & Hrun & Hindex & _).
  - intros fs. reflexivity.
  - apply returned. vm_compute. reflexivity.
  - rewrite Hindex. by injection Hrun as _ <-.
Defined.

Lemma createrepo_apt_failure_witness :
  let C := Reference.collaborators 1 in
  (createrepo_apt (Reference.a_context true true)
     Reference.workspace_world).2
  = Raise (CalledProcessError 1).
Proof.
  intros C.
  destruct (createrepo_apt_failure (Reference.a_context true true)
              Reference.workspace_world
              (Fs.open_w (packages (Reference.a_context true true)
                          </> "Packages")
                 (nodes Reference.workspace_world)).1
              (Fs.open_w (packages (Reference.a_context true true)
                          </> "Packages")
                 (nodes Reference.workspace_world)).1
              (CalledProcessError 1)) as [Hrun _].
  - apply step_returned. vm_compute. reflexivity.
  - reflexivity.
  - by rewrite Hrun.
Defined.

Lemma setup_apt_keeps_entries_witness :
  let C := Reference.collaborators 0 in
  nodes (setup_apt (Reference.a_context true true)
           ["deb http://example/ stable main"] Sample.configured_world).1
    !! ["work"; "pkgmngr"; "etc"; "apt"; "sources.list"]
  = Some (File "deb http://old/ stable main
").
Proof.
  intros C.
  refine (proj1 (setup_apt_keeps_entries (Reference.a_context true true)
                   ["deb http://example/ stable main"]
                   Sample.configured_world
                   ["work"; "pkgmngr"; "etc"; "apt"; "sources.list"] _ _)).
  vm_compute. reflexivity.
Defined.

Lemma setup_apt_skeleton_witness :
  let C := Reference.collaborators 0 in
  Fs.exists_ (root (Reference.a_context true true) </> "var/lib/dpkg/status")
    (nodes (setup_apt (Reference.a_context true true) []
              Reference.empty_world).1)
  = true.
Proof.
  intros C.
  refine (proj2 (setup_apt_skeleton (Reference.a_context true true) []
                   Reference.empty_world _ _)).
  apply returned. vm_compute. reflexivity.
Defined.

Lemma setup_apt_sources_list_witness :
  let C := Reference.collaborators 0 in
  let w' :=
    (setup_apt (Reference.a_context true true)
       ["deb http://example/ stable main"] Reference.empty_world).1 in
  nodes w' !! (pkgmngr (Reference.a_context true true)
               </> "etc/apt/sources.list")
  = Some Dir
  ∨ (nodes w' !! (pkgmngr (Reference.a_context true true)
                  </> "etc/apt/sources.list")
     = Some (File (cat ((λ repo, repo +:+ Py.NL)
                        <$> ["deb http://example/ stable main"])))
     ∧ (Forall (λ repo, one_line repo = true)
          ["deb http://example/ stable main"] →
        Py.lines (cat ((λ repo, repo +:+ Py.NL)
                       <$> ["deb http://example/ stable main"]))
        = ["deb http://example/ stable main"])).
Proof.
  intros C w'.
  apply (setup_apt_sources_list (Reference.a_context true true)
           ["deb http://example/ stable main"] Reference.empty_world w').
  - reflexivity.
  - apply returned. vm_compute. reflexivity.
Defined.

Lemma setup_apt_apt_conf_witness :
  let C := Reference.collaborators 0 in
  let w' :=
    (setup_apt (Reference.a_context true true) [] Reference.empty_world).1 in
  is_Some (nodes w' !! (workspace (Reference.a_context true true)
                        </> "apt.conf")).
Proof.
  intros C w'.
  destruct (setup_apt_apt_conf (Reference.a_context true true) []
              Reference.empty_world w') as [Hdir|(text & Hfile & _)].
  - reflexivity.
  - apply returned. vm_compute. reflexivity.
  - rewrite Hdir. eauto.
  - rewrite Hfile. eauto.
Defined.


Lemma setup_zypper_keeps_repofile_witness :
  let C := Reference.collaborators 0 in
  nodes (setup_zypper (Reference.a_context true true) [Reference.base_repo]
           Sample.configured_world).1
    !! (pkgmngr (Reference.a_context true true)
        </> "etc/zypp/repos.d/mkosi.repo")
  = Some (File "[old]
").
Proof.
  intros C.
  refine (setup_zypper_keeps_repofile (Reference.a_context true true)
            [Reference.base_repo] Sample.configured_world _ _ _).
  - intros fs. reflexivity.
  - vm_compute. reflexivity.
Defined.

Lemma setup_zypper_twice_appends_twice_witness :
  let C := Reference.collaborators 0 in
  let context := Reference.a_context true true in
  let w1 := (setup_zypper context [] Reference.empty_world).1 in
  let w2 := (setup_zypper context [Reference.base_repo] w1).1 in
  nodes w2 !! (pkgmngr context </> "etc/zypp/zypp.conf")
  = Some (File ("" +:+ zypp_conf_text context +:+ zypp_conf_text context)).
Proof.
  intros C context w1 w2.
  refine (setup_zypper_twice_appends_twice context [] [Reference.base_repo]
            Reference.empty_world w1 w2 _ _ _).
  - intros fs. reflexivity.
  - apply returned. vm_compute. reflexivity.
  - apply returned. vm_compute. reflexivity.
Defined.

Lemma setup_zypper_conf_is_directory_witness :
  let C := Reference.collaborators 0 in
  calls (setup_zypper (Reference.a_context true true) []
           Sample.conf_directory_world).1
  = [].
Proof.
  intros C.
  refine (proj2 (setup_zypper_conf_is_directory
                   (Reference.a_context true true) []
                   Sample.conf_directory_world _)).
  vm_compute. reflexivity.
Defined.

Lemma setup_zypper_calls_witness :
  let C := Reference.collaborators 0 in
  new_calls Reference.empty_world
    (setup_zypper (Reference.a_context true true) []
       Reference.empty_world).1
  = [EvSetupRpm].
Proof.
  intros C.
  refine (proj2 (setup_zypper_calls (Reference.a_context true true) []
                   Reference.empty_world) _).
  vm_compute. reflexivity.
Defined.

Lemma repo_header_text_witness :
  repo_header Reference.base_repo = "[base]
name=base
baseurl=http://example/repo
gpgcheck=1
enabled=1
autorefresh=1
keeppackages=1
".
Proof.
  rewrite (repo_header_text Reference.base_repo); reflexivity.
Defined.
